(** * Scrum_Supporter: the document preprocessor and the suggestion requester

    A shallow embedding of [src/app.py]:
    - [extract_pdf_data], the function that reads the handbook PDF, renders
      its outline (embedded, or guessed from the first pages) and builds the
      page-marked full text;
    - [get_ai_suggestions] and the submit branch of [main], the boundary to
      the external generative service.

    Python strings are sequences of Unicode code points, and [len], [strip],
    [isdigit] and indexing all work on code points.  The embedding keeps that:
    a [str] is a list of code points. *)

From Stdlib Require Import String Ascii DecimalString.
From Stdlib Require Import NArith ZArith Bool Lia List.
Import ListNotations.

Set Implicit Arguments.

(** ** Python strings *)

Definition char := N.
Definition str := list char.

(** Source literals are written as UTF-8 text and decoded to code points. *)
Fixpoint utf8_decode (bs : list N) : str :=
  match bs with
  | [] => []
  | b0 :: r0 =>
      if (b0 <? 128)%N then b0 :: utf8_decode r0
      else if (b0 <? 224)%N then
        match r0 with
        | b1 :: r1 => ((b0 - 192) * 64 + (b1 - 128))%N :: utf8_decode r1
        | _ => []
        end
      else if (b0 <? 240)%N then
        match r0 with
        | b1 :: b2 :: r2 =>
            ((b0 - 224) * 4096 + (b1 - 128) * 64 + (b2 - 128))%N
              :: utf8_decode r2
        | _ => []
        end
      else
        match r0 with
        | b1 :: b2 :: b3 :: r3 =>
            ((b0 - 240) * 262144 + (b1 - 128) * 4096
             + (b2 - 128) * 64 + (b3 - 128))%N :: utf8_decode r3
        | _ => []
        end
  end.

Definition u (s : string) : str :=
  utf8_decode (map N_of_ascii (list_ascii_of_string s)).

Definition nl : str := [10%N].
Definition quote : char := 34%N.

(** [len(s)] *)
Definition len (s : str) : nat := length s.

(** [s * n]: repetition; a count below one gives the empty string. *)
Definition str_mul (s : str) (n : Z) : str := concat (repeat s (Z.to_nat n)).

(** [str(n)] for an [int], as an f-string field renders it. *)
Definition format_int (n : Z) : str := u (NilZero.string_of_int (Z.to_int n)).

Fixpoint startswith (prefix s : str) : bool :=
  match prefix, s with
  | [], _ => true
  | _ :: _, [] => false
  | a :: prefix', b :: s' => (a =? b)%N && startswith prefix' s'
  end.

(** [sub in s] *)
Fixpoint contains (sub s : str) : bool :=
  match s with
  | [] => startswith sub []
  | _ :: s' => startswith sub s || contains sub s'
  end.

(** [s.split('\n')]: never empty, [''] for the empty string. *)
Fixpoint split_nl (s : str) : list str :=
  match s with
  | [] => [[]]
  | c :: t =>
      if (c =? 10)%N then [] :: split_nl t
      else match split_nl t with
           | l :: ls => (c :: l) :: ls
           | [] => [[c]]
           end
  end.

(** The code points CPython treats as white space ([str.isspace], and what
    [str.strip()] removes). *)
Definition isspace (c : char) : bool :=
  ((9 <=? c) && (c <=? 13) || (28 <=? c) && (c <=? 32)
   || (c =? 133) || (c =? 160) || (c =? 5760)
   || (8192 <=? c) && (c <=? 8202)
   || (c =? 8232) || (c =? 8233) || (c =? 8239) || (c =? 8287)
   || (c =? 12288))%N.

Fixpoint lstrip (s : str) : str :=
  match s with
  | [] => []
  | c :: t => if isspace c then lstrip t else s
  end.

Fixpoint rstrip (s : str) : str :=
  match s with
  | [] => []
  | c :: t =>
      match rstrip t with
      | [] => if isspace c then [] else [c]
      | t' => c :: t'
      end
  end.

(** [s.strip()] *)
Definition strip (s : str) : str := rstrip (lstrip s).

(** [os.path.basename] on a POSIX path: what follows the last slash. *)
Fixpoint basename (path : str) : str :=
  match path with
  | [] => []
  | c :: t => if existsb (N.eqb 47) t then basename t
              else if (c =? 47)%N then t else path
  end.

(** Truthiness of an optional string: [None] and [''] are false. *)
Definition truthy (s : option str) : bool :=
  match s with
  | Some (_ :: _) => true
  | _ => false
  end.

(** A string without white space. *)
Definition no_space (p : str) : Prop := forall c, In c p -> isspace c = false.

(** A string without a line feed. *)
Definition single_line (s : str) : Prop := ~ In 10%N s.

(** ** Exceptions and a state monad that keeps the state on a raise *)

(** An exception is kept as the text [str(e)] that the handlers format. *)
Definition exn := str.

Inductive outcome (A : Type) : Type :=
| Return (a : A)
| Raise (e : exn).
Arguments Return {A} a.
Arguments Raise {A} e.

Definition M (S A : Type) : Type := S -> S * outcome A.

Definition ret {S A} (a : A) : M S A := fun st => (st, Return a).
Definition bind {S A B} (m : M S A) (k : A -> M S B) : M S B :=
  fun st =>
    match m st with
    | (st', Return a) => k a st'
    | (st', Raise e) => (st', Raise e)
    end.
Definition lift {S A} (o : outcome A) : M S A := fun st => (st, o).
Definition get {S} : M S S := fun st => (st, Return st).
Definition modify {S} (f : S -> S) : M S unit := fun st => (f st, Return tt).

(** [try: body  except Exception as e: handler(e)] *)
Definition try_except {S A} (body : M S A) (handler : exn -> M S A) : M S A :=
  fun st =>
    match body st with
    | (st', Return a) => (st', Return a)
    | (st', Raise e) => handler e st'
    end.

Declare Scope py_scope.
Delimit Scope py_scope with py.
Notation "x <- m ;; k" := (bind m (fun x => k))
  (at level 61, m at next level, right associativity) : py_scope.
Notation "m ;; k" := (bind m (fun _ => k))
  (at level 61, right associativity) : py_scope.
Open Scope py_scope.

(** [for x in xs: body(x)] *)
Fixpoint for_each {S A} (xs : list A) (body : A -> M S unit) : M S unit :=
  match xs with
  | [] => ret tt
  | x :: rest => body x ;; for_each rest body
  end.

(** [range(n)] *)
Definition range (n : nat) : list nat := seq 0 n.

(** ** The document, as PyMuPDF presents it *)

(** An outline entry: level, title, target page. *)
Definition toc_entry : Type := Z * str * Z.

(** [get_toc] and each page's text extraction may raise. *)
Record Document : Type := mkDocument {
  get_toc : outcome (list toc_entry);
  page_texts : list (outcome str)
}.

Definition page_count (doc : Document) : nat := length (page_texts doc).

(** [doc.load_page(page_num).get_text("text")] *)
Definition get_text (doc : Document) (page_num : nat) : outcome str :=
  nth page_num (page_texts doc) (Raise (u "page not in document")).

Record filesystem : Type := mkFilesystem {
  os_path_exists : str -> bool;
  fitz_open : str -> outcome Document
}.

(** ** [extract_pdf_data] *)

(** The local variables the function assigns. *)
Record locals : Type := mkLocals {
  toc_text : option str;
  full_text : str;
  toc_error : option str;
  found_toc_lines : Z
}.

Definition set_toc_text (v : option str) (st : locals) : locals :=
  mkLocals v (full_text st) (toc_error st) (found_toc_lines st).
Definition set_full_text (v : str) (st : locals) : locals :=
  mkLocals (toc_text st) v (toc_error st) (found_toc_lines st).
Definition set_toc_error (v : option str) (st : locals) : locals :=
  mkLocals (toc_text st) (full_text st) v (found_toc_lines st).
Definition set_found_toc_lines (v : Z) (st : locals) : locals :=
  mkLocals (toc_text st) (full_text st) (toc_error st) v.

Definition toc_heading : str :=
  u "Inhaltsverzeichnis von 'Öffentliches Gestalten':".

(** The initial value of [toc_text]: the heading and an empty line. *)
Definition toc_header : str := toc_heading ++ nl ++ nl.

Definition toc_warning : str :=
  u "Konnte kein detailliertes Inhaltsverzeichnis extrahieren. Analyse basiert auf Volltext.".

Definition not_found_message (pdf_path : str) : str :=
  u "Fehler: Die Handbuchdatei '" ++ pdf_path ++ u "' wurde nicht gefunden.".

Definition pdf_error_message (e : exn) : str :=
  u "Fehler bei der PDF-Verarbeitung: " ++ e.

Definition initial_locals : locals :=
  mkLocals (Some toc_header) [] None 0.

(** [toc_text += s]; adding to [None] is a [TypeError]. *)
Definition toc_text_append (s : str) : M locals unit :=
  fun st =>
    match toc_text st with
    | Some t => (set_toc_text (Some (t ++ s)) st, Return tt)
    | None =>
        (st, Raise (u "unsupported operand type(s) for +=: 'NoneType' and 'str'"))
    end.

(** [full_text += s] *)
Definition full_text_append (s : str) : M locals unit :=
  modify (fun st => set_full_text (full_text st ++ s) st).

(** [indent = "  " * (level - 1)] *)
Definition toc_indent (level : Z) : str := str_mul (u "  ") (level - 1).

(** The line one embedded outline entry is rendered to, without and with
    its line end. *)
Definition toc_line_text (entry : toc_entry) : str :=
  let '(level, title, page) := entry in
  toc_indent level ++ u "- " ++ title
    ++ u " (Seite " ++ format_int page ++ u ")".

Definition toc_line (entry : toc_entry) : str := toc_line_text entry ++ nl.

(** The line one heuristic match is rendered to. *)
Definition bullet_line (clean_line : str) : str :=
  u "- " ++ clean_line ++ nl.

(** The marker of the page with the 1-based number [n]. *)
Definition page_marker (n : Z) : str :=
  u "[Seite " ++ format_int n ++ u "]".

(** The block one page contributes to the full text; [page_num] counts
    from 0. *)
Definition page_block (page_num : nat) (page_text : str) : str :=
  nl ++ nl ++ page_marker (Z.of_nat page_num + 1) ++ nl ++ page_text.

Definition max_toc_pages : nat := 10.

Section Preprocessor.

(** [str.isdigit] on one code point: the Unicode database decides it. *)
Variable isdigit : char -> bool.

(** [any(char.isdigit() for char in s)] *)
Definition any_isdigit (s : str) : bool := existsb isdigit s.

(** First test of the heuristic. *)
Definition dotted_with_digit (clean_line : str) : bool :=
  contains (u "...") clean_line && any_isdigit clean_line.

(** Second test of the heuristic; [clean_line[-1]] is only evaluated on a
    non-empty string. *)
Definition ends_in_digit (clean_line : str) : bool :=
  match clean_line with
  | [] => false
  | _ :: _ => isdigit (last clean_line 0%N) && (3 <? len clean_line)
  end.

(** Body of [for line in lines]. *)
Definition scan_line (line : str) : M locals unit :=
  let clean_line := strip line in
  if dotted_with_digit clean_line then
    toc_text_append (bullet_line clean_line) ;;
    modify (fun st => set_found_toc_lines (found_toc_lines st + 1) st)
  else if ends_in_digit clean_line then
    toc_text_append (bullet_line clean_line) ;;
    modify (fun st => set_found_toc_lines (found_toc_lines st + 1) st)
  else ret tt.

(** Body of [for page_num in range(min(max_toc_pages, doc.page_count))]. *)
Definition scan_page (doc : Document) (page_num : nat) : M locals unit :=
  text <- lift (get_text doc page_num) ;;
  let lines := split_nl text in
  for_each lines scan_line.

(** The [else] branch: guess an outline from the first pages. *)
Definition fallback_scan (doc : Document) : M locals unit :=
  modify (set_found_toc_lines 0) ;;
  for_each (range (Nat.min max_toc_pages (page_count doc))) (scan_page doc) ;;
  st <- get ;;
  if (found_toc_lines st <? 3)%Z then
    modify (set_toc_error (Some toc_warning)) ;;
    modify (set_toc_text None)
  else ret tt.

(** The [if toc:] branch: render the embedded outline. *)
Definition render_toc (toc : list toc_entry) : M locals unit :=
  for_each toc (fun entry => toc_text_append (toc_line entry)).

(** Step 3: the full text with page markers. *)
Definition extract_full_text (doc : Document) : M locals unit :=
  for_each (range (page_count doc))
    (fun page_num =>
       page_text <- lift (get_text doc page_num) ;;
       full_text_append (page_block page_num page_text)).

(** The body of the [try] statement. *)
Definition try_body (fs : filesystem) (pdf_path : str) : M locals unit :=
  doc <- lift (fitz_open fs pdf_path) ;;
  toc <- lift (get_toc doc) ;;
  match toc with
  | _ :: _ => render_toc toc
  | [] => fallback_scan doc
  end ;;
  extract_full_text doc.

(** The returned tuple:
    [(full_text, toc_text, toc_error, pdf_error)]. *)
Definition result : Type :=
  option str * option str * option str * option str.

Definition extract_pdf_data (fs : filesystem) (pdf_path : str) : result :=
  if negb (os_path_exists fs pdf_path) then
    (None, None, Some (not_found_message pdf_path), None)
  else
    match try_body fs pdf_path initial_locals with
    | (st, Return _) =>
        (Some (full_text st), toc_text st, toc_error st, None)
    | (st, Raise e) =>
        (None, None, toc_error st, Some (pdf_error_message e))
    end.

(** *** The test of a line as the specification words it *)

(** A line is a candidate when it has three periods in a row and a digit,
    or is non-empty, ends in a digit and is longer than 3. *)
Definition spec_candidate (line : str) : bool :=
  (contains (u "...") line && existsb isdigit line)
  || (negb (len line =? 0) && isdigit (last line 0%N) && (3 <? len line)).

(** The stripped lines of the first pages that pass the test, in document
    order. *)
Definition matched_lines (texts : list str) : list str :=
  filter spec_candidate
    (map strip (concat (map split_nl (firstn max_toc_pages texts)))).

(** *** Closed forms of the loop states, used to state the facts below *)

(** The locals after one matching line, when [toc_text] held [t]. *)
Definition after_match (clean_line t : str) (st : locals) : locals :=
  mkLocals (Some (t ++ bullet_line clean_line)) (full_text st)
           (toc_error st) (found_toc_lines st + 1).

(** The locals after scanning a sequence of lines. *)
Definition after_lines (lines : list str) (t : str) (st : locals) : locals :=
  let ms := filter spec_candidate (map strip lines) in
  mkLocals (Some (t ++ concat (map bullet_line ms))) (full_text st)
           (toc_error st) (found_toc_lines st + Z.of_nat (length ms)).

End Preprocessor.

Definition res_full_text (r : result) : option str := fst (fst (fst r)).
Definition res_toc_text (r : result) : option str := snd (fst (fst r)).
Definition res_toc_error (r : result) : option str := snd (fst r).
Definition res_pdf_error (r : result) : option str := snd r.

(** The outline line as the specification writes it. *)
Definition spec_outline_line (entry : toc_entry) : str :=
  let '(level, title, page) := entry in
  str_mul (u "  ") (level - 1) ++ title ++ u " (Page " ++ format_int page ++ u ")".

(** The page marker as the specification writes it. *)
Definition spec_page_marker (n : nat) : str :=
  u "[Page " ++ format_int (Z.of_nat n) ++ u "]".

(** The full text of pages that were all read: each page's text behind its
    marker, the markers numbered from 1. *)
Definition marked_pages (texts : list str) : str :=
  concat (map (fun p => nl ++ nl ++ page_marker (Z.of_nat (fst p)) ++ nl ++ snd p)
              (combine (seq 1 (length texts)) texts)).

Definition entry_title (entry : toc_entry) : str := snd (fst entry).

(** The decimal digits of ASCII; [str.isdigit] is this below code point 128. *)
Definition ascii_isdigit (c : char) : bool := ((48 <=? c) && (c <=? 57))%N.

Definition is_return {A} (o : outcome A) : bool :=
  match o with
  | Return _ => true
  | Raise _ => false
  end.

(** A document every part of which can be read. *)
Definition readable (doc : Document) : bool :=
  match get_toc doc with
  | Return _ =>
      forallb is_return (page_texts doc)
  | Raise _ => false
  end.

(** The path opens to a document every part of which can be read. *)
Definition opens_and_reads (fs : filesystem) (pdf_path : str) : bool :=
  match fitz_open fs pdf_path with
  | Return doc => readable doc
  | Raise _ => false
  end.

(** ** The suggestion requester and the page that calls it *)

Definition PDF_PATH : str := u "Oeffentliches_Gestalten.pdf".
Definition MODEL_NAME : str := u "gemini-2.5-flash-preview-04-17".

(** The single message sent to the service: the PDF bytes with their content
    type, and the prompt. *)
Record request : Type := mkRequest {
  inline_mime_type : str;
  inline_data : list Byte.byte;
  text_part : str
}.

(** A response; reading its [text] may raise (a blocked or empty answer). *)
Record response : Type := mkResponse {
  response_text : outcome str
}.

(** What lies outside the program: the configured key, the files, and the
    generative service. *)
Record world : Type := mkWorld {
  API_KEY : option str;
  read_bytes : str -> outcome (list Byte.byte);
  generate_content : str -> request -> outcome response
}.

(** What a run does that can be observed from outside. *)
Inductive event : Type :=
| st_chrome (part : string)
| st_spinner (message : str)
| st_subheader (body : str)
| st_markdown (body : str)
| st_warning (message : str)
| st_error (message : str)
| genai_configure (api_key : option str)
| call_get_ai_suggestions (problem_description : str)
| api_call (model : str) (req : request).

Record session_state : Type := mkSession {
  pdf_initialized : bool;
  pdf_data : option (list Byte.byte)
}.

Record runtime : Type := mkRuntime {
  session : session_state;
  trace : list event
}.

Definition emit (e : event) : M runtime unit :=
  modify (fun rt => mkRuntime (session rt) (trace rt ++ [e])).

Definition prompt_before : list str :=
  [ [];
    u "Du bist ein Expertenassistent, der einem Creative Director bei der Betreuung von Universitätsprojekten hilft.";
    u "Die Projekte basieren auf den Methoden im Handbuch 'Öffentliches Gestalten'.";
    u "Deine Aufgabe ist es, relevante Übungen/Abschnitte aus dem Handbuch vorzuschlagen, um spezifische Teamprobleme zu lösen.";
    [];
    u "PROBLEMBESCHREIBUNG DES BENUTZERS:" ].

Definition prompt_after : list str :=
  [ [];
    u "AUFGABE:";
    u "1. Analysiere die Kernprobleme in der Beschreibung des Benutzers.";
    u "2. Identifiziere die relevantesten Übungen, die diese Probleme direkt ansprechen:";
    u "   - Bei einfachen Problemen schlage nur die eine beste Übung vor.";
    u "   - Bei komplexeren Problemen schlage bis zu 3 Übungen vor, wenn wirklich mehrere Ansätze notwendig sind.";
    [];
    u "3. Für jeden Übungsvorschlag extrahiere:";
    u "   - Den exakten Titel der Übung.";
    u "   - Die exakten Seitenzahlen des gesamten Übungsabschnitts (von Anfang bis Ende).";
    u "   - Die exakte Seitenzahl, auf der der " ++ [quote] ++ u "Vorgehen" ++ [quote] ++ u "-Abschnitt beginnt.";
    u "   - Alle angegebenen Metadaten zur Übung wie Zeitrahmen, Niveau, benötigte Materialien und Rollen.";
    [];
    u "ANTWORTFORMAT:";
    u "Strukturiere deine Antwort folgendermaßen:";
    [];
    u "## 🔍 Problembeschreibung";
    u "[Kurze Zusammenfassung des Kernproblems in 1-2 Sätzen]";
    [];
    u "## 💡 Empfohlene Übung(en)";
    u "### 📋 [Titel der Übung 1]";
    u "- **Seiten:** [Seitenbereich z.B. 45-48]";
    u "- **Vorgehen beginnt auf:** Seite [Seitenzahl]";
    u "- **Zeitrahmen:** [Zeit aus dem Handbuch]";
    u "- **Niveau:** [Niveau aus dem Handbuch]";
    u "- **Materialien:** [Benötigte Materialien]";
    u "- **Rollen:** [Benötigte Rollen]";
    [];
    u "### 📋 [Titel der Übung 2] (falls nötig)";
    u "[Gleiche Struktur wie oben]";
    [];
    u "## ✅ Warum diese Übung(en) passen";
    u "[Erklärung, wie die Übung(en) das Problem adressieren]" ].

Definition unlines (lines : list str) : str :=
  concat (map (fun l => l ++ nl) lines).

(** The f-string assigned to [prompt]. *)
Definition build_prompt (problem_description : str) : str :=
  unlines prompt_before
    ++ [quote] ++ problem_description ++ [quote] ++ nl
    ++ unlines prompt_after.

Definition no_key_message : str :=
  u "Google API-Schlüssel nicht konfiguriert. Bitte .env-Datei prüfen.".

Definition api_failure_message (e : exn) : str :=
  u "Fehler bei der Kommunikation mit der Gemini API: " ++ e.

(** Entering the function is recorded, so that a run shows whether the
    requester was invoked. *)
Definition get_ai_suggestions (w : world) (problem_description : str)
  : M runtime (option str) :=
  emit (call_get_ai_suggestions problem_description) ;;
  if negb (truthy (API_KEY w)) then
    emit (st_error no_key_message) ;;
    ret None
  else
    try_except
      (emit (genai_configure (API_KEY w)) ;;
       let prompt := build_prompt problem_description in
       pdf_data <- lift (read_bytes w PDF_PATH) ;;
       let req := mkRequest (u "application/pdf") pdf_data prompt in
       emit (api_call MODEL_NAME req) ;;
       response <- lift (generate_content w MODEL_NAME req) ;;
       text <- lift (response_text response) ;;
       ret (Some text))
      (fun e =>
         emit (st_error (api_failure_message e)) ;;
         ret None).

Definition initialize_pdf_data (w : world) (pdf_path : str) : M runtime bool :=
  rt <- get ;;
  if negb (pdf_initialized (session rt)) then
    emit (st_spinner (u "Lade '" ++ basename pdf_path ++ u "'...")) ;;
    try_except
      (emit (genai_configure (API_KEY w)) ;;
       pdf_data <- lift (read_bytes w pdf_path) ;;
       modify (fun rt => mkRuntime (mkSession true (Some pdf_data)) (trace rt)) ;;
       ret true)
      (fun e =>
         emit (st_error (u "Fehler beim Laden der PDF: " ++ e)) ;;
         ret false)
  else ret true.

(** What the form hands to the page on one run. *)
Record form_input : Type := mkForm {
  problem_description : option str;
  submit_button : bool
}.

Definition validation_warning : str :=
  u "Bitte geben Sie eine aussagekräftige Problembeschreibung ein (mind. 20 Zeichen).".

Definition key_missing_message : str :=
  u "Google API-Schlüssel fehlt. Bitte konfigurieren.".

Definition result_card (suggestions : str) : str :=
  u "<div class=" ++ [quote] ++ u "result-card" ++ [quote] ++ u ">"
    ++ suggestions ++ u "</div>".

(** [not problem_description or len(problem_description) < 20] *)
Definition too_short (description : option str) : bool :=
  match description with
  | None => true
  | Some d => negb (truthy (Some d)) || (len d <? 20)
  end.

(** The branch of [main] under [if submit_button:]. *)
Definition on_submit (w : world) (description : option str) : M runtime unit :=
  if too_short description then emit (st_warning validation_warning)
  else if negb (truthy (API_KEY w)) then emit (st_error key_missing_message)
  else
    let d := match description with Some d => d | None => [] end in
    emit (st_spinner (u "KI analysiert das Problem und sucht nach Übungen...")) ;;
    suggestions <- get_ai_suggestions w d ;;
    emit (st_markdown (u "---")) ;;
    emit (st_subheader (u "Ergebnis der Analyse")) ;;
    match suggestions with
    | Some (c :: t) => emit (st_markdown (result_card (c :: t)))
    | _ =>
        emit (st_error (u "Es konnten keine Vorschläge generiert werden. Überprüfen Sie die Fehlermeldungen."))
    end.

Definition main (w : world) (form : form_input) : M runtime unit :=
  emit (st_chrome "set_page_config") ;;
  emit (st_chrome "apply_modern_styling") ;;
  emit (st_chrome "render_app_header") ;;
  emit (st_chrome "render_sidebar_info") ;;
  ok <- initialize_pdf_data w PDF_PATH ;;
  if negb ok then
    emit (st_error (u "PDF konnte nicht geladen werden. Die Anwendung kann nicht fortfahren.")) ;;
    emit (st_chrome "render_footer")
  else
    emit (st_chrome "render_introduction") ;;
    emit (st_subheader (u "Problembeschreibung eingeben")) ;;
    emit (st_chrome "form") ;;
    (if submit_button form then on_submit w (problem_description form)
     else ret tt) ;;
    emit (st_chrome "render_footer").

(** The events of a run that are invocations of the requester. *)
Definition is_requester_call (e : event) : bool :=
  match e with
  | call_get_ai_suggestions _ => true
  | _ => false
  end.

(** The events of a run that are requests to the external service. *)
Definition is_api_call (e : event) : bool :=
  match e with
  | api_call _ _ => true
  | _ => false
  end.

Definition fresh_runtime : runtime := mkRuntime (mkSession false None) [].

(** The page gets as far as the form: the PDF is already in the session, or
    it can be read now. *)
Definition page_loads (w : world) (rt : runtime) : bool :=
  pdf_initialized (session rt) || is_return (read_bytes w PDF_PATH).

(** The request [get_ai_suggestions] sends for a description. *)
Definition request_for (pdf_data : list Byte.byte) (description : str) : request :=
  mkRequest (u "application/pdf") pdf_data (build_prompt description).

(** ** Sample inputs *)

(** A file system in which every path exists and opens to [doc]. *)
Definition fs_with (doc : outcome Document) : filesystem :=
  mkFilesystem (fun _ => true) (fun _ => doc).

(** A file system without any file. *)
Definition fs_empty : filesystem :=
  mkFilesystem (fun _ => false) (fun _ => Raise (u "no such file")).

Definition sample_contents_page : str :=
  u "Inhalt" ++ nl ++ u "Einleitung ... 3" ++ nl ++ u "Methoden 12" ++ nl
    ++ u "Anhang 40".

Definition sample_answer : str := u "## Result" ++ nl ++ u "OK".

(** A world with a key, a readable PDF and a service that answers. *)
Definition world_ok : world :=
  mkWorld (Some (u "secret")) (fun _ => Return [])
          (fun _ _ => Return (mkResponse (Return sample_answer))).

(** The same world without a key. *)
Definition world_no_key : world :=
  mkWorld None (fun _ => Return [])
          (fun _ _ => Return (mkResponse (Return sample_answer))).

(** The same world with a service that fails. *)
Definition world_quota : world :=
  mkWorld (Some (u "secret")) (fun _ => Return [])
          (fun _ _ => Raise (u "429 quota exceeded")).

Definition twenty_characters : str := u "Team ohne Vision ...".

Definition sample_outline : list toc_entry :=
  [ (1, u "Einleitung", 3); (2, u "Ziele", 4); (1, u "Methoden", 12) ]%Z.

(** ** Where the key comes from *)

(** What [get_api_key] looks at: the lookup [st.secrets["GOOGLE_API_KEY"]],
    which raises when the store or the entry is missing, and what
    [os.getenv("GOOGLE_API_KEY")] gives once [load_dotenv()] has run. *)
Record key_sources : Type := mkKeySources {
  st_secrets : outcome str;
  os_getenv : option str
}.

Definition get_api_key (src : key_sources) : option str :=
  match st_secrets src with
  | Return key => Some key
  | Raise _ => os_getenv src
  end.

(** The world of a process whose module-level [API_KEY] is
    [get_api_key()]. *)
Definition world_from (src : key_sources)
           (files : str -> outcome (list Byte.byte))
           (service : str -> request -> outcome response) : world :=
  mkWorld (get_api_key src) files service.

(** ** Closed forms of the page's runs, used to state the facts below *)

(** What a call of [get_ai_suggestions] adds to the trace after its entry
    mark, and what it returns. *)
Definition requester_outcome (w : world) (d : str) : list event * option str :=
  if truthy (API_KEY w) then
    match read_bytes w PDF_PATH with
    | Raise e =>
        ([genai_configure (API_KEY w); st_error (api_failure_message e)], None)
    | Return pdf =>
        let req := request_for pdf d in
        match generate_content w MODEL_NAME req with
        | Raise e =>
            ([genai_configure (API_KEY w); api_call MODEL_NAME req;
              st_error (api_failure_message e)], None)
        | Return resp =>
            match response_text resp with
            | Raise e =>
                ([genai_configure (API_KEY w); api_call MODEL_NAME req;
                  st_error (api_failure_message e)], None)
            | Return text =>
                ([genai_configure (API_KEY w); api_call MODEL_NAME req],
                 Some text)
            end
        end
    end
  else ([st_error no_key_message], None).

Definition no_suggestions_message : str :=
  u "Es konnten keine Vorschläge generiert werden. Überprüfen Sie die Fehlermeldungen.".

(** How the page shows what the requester returned. *)
Definition show_suggestions (suggestions : option str) : event :=
  match suggestions with
  | Some (c :: t) => st_markdown (result_card (c :: t))
  | _ => st_error no_suggestions_message
  end.

(** What the submit branch adds to the trace. *)
Definition submit_events (w : world) (description : option str) : list event :=
  if too_short description then [st_warning validation_warning]
  else if negb (truthy (API_KEY w)) then [st_error key_missing_message]
  else
    let d := match description with Some d => d | None => [] end in
    [st_spinner (u "KI analysiert das Problem und sucht nach Übungen...");
     call_get_ai_suggestions d]
      ++ fst (requester_outcome w d)
      ++ [st_markdown (u "---"); st_subheader (u "Ergebnis der Analyse");
          show_suggestions (snd (requester_outcome w d))].

(** What [initialize_pdf_data] adds to the trace, the session it leaves and
    what it returns. *)
Definition init_outcome (w : world) (pdf_path : str) (ss : session_state)
  : list event * session_state * bool :=
  if pdf_initialized ss then ([], ss, true)
  else
    match read_bytes w pdf_path with
    | Return pdf =>
        ([st_spinner (u "Lade '" ++ basename pdf_path ++ u "'...");
          genai_configure (API_KEY w)],
         mkSession true (Some pdf), true)
    | Raise e =>
        ([st_spinner (u "Lade '" ++ basename pdf_path ++ u "'...");
          genai_configure (API_KEY w);
          st_error (u "Fehler beim Laden der PDF: " ++ e)],
         ss, false)
    end.

Definition page_head : list event :=
  [ st_chrome "set_page_config"; st_chrome "apply_modern_styling";
    st_chrome "render_app_header"; st_chrome "render_sidebar_info" ].

Definition load_failure_message : str :=
  u "PDF konnte nicht geladen werden. Die Anwendung kann nicht fortfahren.".

(** What one run of [main] adds to the trace. *)
Definition main_events (w : world) (form : form_input) (ss : session_state)
  : list event :=
  let '(evs, _, ok) := init_outcome w PDF_PATH ss in
  page_head ++ evs
    ++ (if ok then
          [st_chrome "render_introduction";
           st_subheader (u "Problembeschreibung eingeben"); st_chrome "form"]
            ++ (if submit_button form
                then submit_events w (problem_description form) else [])
        else [st_error load_failure_message])
    ++ [st_chrome "render_footer"].

(** ** More sample inputs *)

Definition ten_pages : list str :=
  sample_contents_page :: repeat (u "Text") 9.

Definition ten_plain_pages : list str := repeat (u "Text") 10.

(** A world whose service answers with an empty text. *)
Definition world_silent : world :=
  mkWorld (Some (u "secret")) (fun _ => Return [])
          (fun _ _ => Return (mkResponse (Return []))).

(** A world in which the PDF cannot be read. *)
Definition world_no_pdf : world :=
  mkWorld (Some (u "secret")) (fun _ => Raise (u "No such file or directory"))
          (fun _ _ => Return (mkResponse (Return sample_answer))).

(** ** The first failure of a document *)

(** The exception of the first page that cannot be read, if there is one. *)
Fixpoint first_raise (ps : list (outcome str)) : option exn :=
  match ps with
  | [] => None
  | Return _ :: rest => first_raise rest
  | Raise e :: _ => Some e
  end.

(** The exception that opening the document, reading its outline and
    reading its pages in order meets first, if there is one. *)
Definition first_exception (fs : filesystem) (pdf_path : str) : option exn :=
  match fitz_open fs pdf_path with
  | Raise e => Some e
  | Return doc =>
      match get_toc doc with
      | Raise e => Some e
      | Return _ => first_raise (page_texts doc)
      end
  end.

(** * Facts *)

(** ** The string operations on small inputs *)

(** Decoding a literal: one code point per character, whatever its width. *)
Example u_umlaut : u "Öl 🔍" = [214; 108; 32; 128269]%N.
Proof. reflexivity. Qed.

Example split_nl_trailing : split_nl (u "a" ++ nl ++ u "b" ++ nl) = [u "a"; u "b"; []].
Proof. reflexivity. Qed.

Example split_nl_empty : split_nl [] = [[]].
Proof. reflexivity. Qed.

Example strip_both_ends : strip ([9; 32]%N ++ u "1 Ziele  4" ++ [32; 13]%N) = u "1 Ziele  4".
Proof. reflexivity. Qed.

Example strip_blank : strip (u "   ") = [].
Proof. reflexivity. Qed.

Example contains_dots : contains (u "...") (u "Ziele .... 4") = true.
Proof. reflexivity. Qed.

Example contains_two_dots : contains (u "...") (u "z.B. 4..5") = false.
Proof. reflexivity. Qed.

Example format_int_negative : format_int (-1) = u "-1".
Proof. reflexivity. Qed.

Example str_mul_level_zero : str_mul (u "  ") (0 - 1) = [].
Proof. reflexivity. Qed.

Example basename_of_path : basename (u "docs/Oeffentliches_Gestalten.pdf") = PDF_PATH.
Proof. reflexivity. Qed.

(** ** Running loops *)

Lemma for_each_app {S A} (xs ys : list A) (body : A -> M S unit) (st : S) :
  for_each (xs ++ ys) body st = (for_each xs body ;; for_each ys body) st.
Proof.
  revert st; induction xs as [|x xs IH]; intro st; simpl.
  - reflexivity.
  - unfold bind in *. destruct (body x st) as [st1 [[]|e]]; [apply IH | reflexivity].
Qed.

(** A nested loop visits the concatenation of the inner sequences. *)
Lemma for_each_concat {S A B} (xs : list A) (inner : A -> list B)
      (body : B -> M S unit) (st : S) :
  for_each xs (fun x => for_each (inner x) body) st
  = for_each (concat (map inner xs)) body st.
Proof.
  revert st; induction xs as [|x xs IH]; intro st; simpl; [reflexivity|].
  rewrite for_each_app. unfold bind.
  destruct (for_each (inner x) body st) as [st1 [[]|e]]; [apply IH | reflexivity].
Qed.

(** A loop over indices that only looks the element up is a loop over the
    elements paired with their indices. *)
Lemma for_each_seq_nth {S A} (body : nat -> A -> M S unit) (d : A)
      (l pre suf : list A) (st : S) :
  for_each (seq (length pre) (length l))
           (fun i => body i (nth i (pre ++ l ++ suf) d)) st
  = for_each (combine (seq (length pre) (length l)) l)
             (fun p => body (fst p) (snd p)) st.
Proof.
  revert pre st; induction l as [|x l IH]; intros pre st; simpl; [reflexivity|].
  unfold bind. rewrite app_nth2, Nat.sub_diag by lia. simpl.
  destruct (body (length pre) x st) as [st1 [[]|e]]; [|reflexivity].
  specialize (IH (pre ++ [x]) st1).
  rewrite length_app, Nat.add_1_r, <- app_assoc in IH. exact IH.
Qed.

Lemma bind_cong {S A B} (m1 m2 : M S A) (k1 k2 : A -> M S B) :
  (forall st, m1 st = m2 st) ->
  (forall a st, k1 a st = k2 a st) ->
  forall st, bind m1 k1 st = bind m2 k2 st.
Proof.
  intros Hm Hk st. unfold bind. rewrite Hm.
  destruct (m2 st) as [st1 [a|e]]; [apply Hk | reflexivity].
Qed.

(** Reading a sequence of values that are all there. *)
Lemma for_each_combine_return {S A} (body : nat -> A -> M S unit)
      (xs : list A) :
  forall (a : nat) (st : S),
    for_each (combine (seq a (length xs)) (map Return xs))
             (fun p => x <- lift (snd p) ;; body (fst p) x) st
    = for_each (combine (seq a (length xs)) xs)
               (fun p => body (fst p) (snd p)) st.
Proof.
  induction xs as [|x xs IH]; intros a st; simpl; [reflexivity|].
  apply bind_cong; [reflexivity | intros _ st1; apply IH].
Qed.

Lemma for_each_combine_snd {S A} (body : A -> M S unit) (xs : list A) :
  forall (a : nat) (st : S),
    for_each (combine (seq a (length xs)) xs) (fun p => body (snd p)) st
    = for_each xs body st.
Proof.
  induction xs as [|x xs IH]; intros a st; simpl; [reflexivity|].
  apply bind_cong; [reflexivity | intros _ st1; apply IH].
Qed.

(** ** Strings *)

Lemma startswith_app (p b : str) : startswith p (p ++ b) = true.
Proof.
  induction p as [|a p IH]; [reflexivity|].
  cbn [app startswith]. now rewrite N.eqb_refl.
Qed.

Lemma contains_of_startswith (p s : str) :
  startswith p s = true -> contains p s = true.
Proof. destruct s; cbn [contains]; intro H; now rewrite H. Qed.

Lemma contains_app_r (p a s : str) :
  contains p s = true -> contains p (a ++ s) = true.
Proof.
  intro H. induction a as [|c a IH]; [exact H|].
  cbn [app contains]. rewrite IH. apply orb_true_r.
Qed.

Lemma contains_suffix (p e : str) : contains e (p ++ e) = true.
Proof.
  apply contains_app_r, contains_of_startswith.
  rewrite <- (app_nil_r e) at 2. apply startswith_app.
Qed.

Lemma single_line_forallb (s : str) :
  forallb (fun c => negb (c =? 10)%N) s = true -> single_line s.
Proof.
  unfold single_line. intros H Hin.
  rewrite forallb_forall in H. specialize (H _ Hin). discriminate H.
Qed.

Lemma single_line_app (a b : str) :
  single_line a -> single_line b -> single_line (a ++ b).
Proof. unfold single_line. intros Ha Hb H. apply in_app_or in H. tauto. Qed.

Lemma split_nl_line (l rest : str) :
  single_line l -> split_nl (l ++ nl ++ rest) = l :: split_nl rest.
Proof.
  unfold single_line. induction l as [|c l IH]; intro H; [reflexivity|].
  cbn [app split_nl].
  destruct (N.eqb_spec c 10) as [->|_]; [exfalso; apply H; now left|].
  rewrite IH; [reflexivity|]. intro Hin. apply H. now right.
Qed.

Lemma split_nl_unlines (ls : list str) :
  Forall single_line ls ->
  split_nl (concat (map (fun l => l ++ nl) ls)) = ls ++ [[]].
Proof.
  induction 1 as [|l ls Hl _ IH]; [reflexivity|].
  cbn [map concat]. rewrite <- app_assoc, split_nl_line by assumption.
  now rewrite IH.
Qed.

Lemma u_ascii (c : ascii) (s : string) :
  (N_of_ascii c <? 128)%N = true -> u (String c s) = N_of_ascii c :: u s.
Proof. intro H. unfold u. cbn [list_ascii_of_string map utf8_decode]. now rewrite H. Qed.

Lemma single_line_digits (d : Decimal.uint) :
  single_line (u (NilEmpty.string_of_uint d)).
Proof.
  unfold single_line.
  induction d; cbn [NilEmpty.string_of_uint];
    [intros [] | rewrite u_ascii by reflexivity; intros [H|H];
                 [discriminate H | exact (IHd H)] ..].
Qed.

Lemma single_line_format_int (n : Z) : single_line (format_int n).
Proof.
  unfold format_int, NilZero.string_of_int.
  assert (Hu : forall d, single_line (u (NilZero.string_of_uint d))).
  { intro d. unfold NilZero.string_of_uint.
    destruct d; try apply single_line_digits.
    unfold single_line. intros [H|[]]. discriminate H. }
  destruct (Z.to_int n) as [d|d]; [apply Hu|].
  rewrite u_ascii by reflexivity. intros [H|H]; [discriminate H | exact (Hu d H)].
Qed.

Lemma single_line_str_mul (s : str) (n : Z) :
  single_line s -> single_line (str_mul s n).
Proof.
  intro Hs. unfold str_mul.
  induction (Z.to_nat n) as [|k IH]; [intros []|].
  cbn [repeat concat]. now apply single_line_app.
Qed.

Lemma toc_indent_spaces (level : Z) :
  toc_indent level = repeat 32%N (2 * Z.to_nat (level - 1)).
Proof.
  unfold toc_indent, str_mul. induction (Z.to_nat (level - 1)) as [|k IH].
  - reflexivity.
  - cbn [repeat concat]. rewrite IH.
    replace (2 * S k) with (S (S (2 * k))) by lia. reflexivity.
Qed.

Lemma length_str_mul (s : str) (n : Z) :
  length (str_mul s n) = Z.to_nat n * length s.
Proof.
  unfold str_mul. induction (Z.to_nat n) as [|k IH]; [reflexivity|].
  cbn [repeat concat]. rewrite length_app, IH. lia.
Qed.

(** ** Stripping and the first test of the heuristic *)

Lemma rstrip_cons (c : char) (t : str) :
  rstrip (c :: t)
  = match rstrip t with
    | [] => if isspace c then [] else c :: rstrip t
    | _ :: _ => c :: rstrip t
    end.
Proof. cbn [rstrip]. destruct (rstrip t); [destruct (isspace c)|]; reflexivity. Qed.

Lemma startswith_space (a c : char) (p t : str) :
  isspace a = false -> isspace c = true -> startswith (a :: p) (c :: t) = false.
Proof.
  intros Ha Hc. cbn [startswith].
  destruct (N.eqb_spec a c) as [->|_]; [congruence | reflexivity].
Qed.

Lemma startswith_rstrip (s : str) :
  forall p, no_space p -> startswith p (rstrip s) = startswith p s.
Proof.
  induction s as [|c t IH]; intros p Hp; [reflexivity|].
  destruct p as [|a p]; [reflexivity|].
  assert (Ha : isspace a = false) by (apply Hp; now left).
  assert (Hp' : no_space p) by (intros x Hx; apply Hp; now right).
  specialize (IH p Hp'). rewrite rstrip_cons.
  destruct (rstrip t) as [|x r] eqn:Er.
  - destruct (isspace c) eqn:Ec.
    + now rewrite startswith_space.
    + cbn [startswith]. now rewrite IH.
  - cbn [startswith] in *. now rewrite IH.
Qed.

Lemma contains_rstrip (p s : str) :
  no_space p -> p <> [] -> contains p (rstrip s) = contains p s.
Proof.
  intros Hp Hne. induction s as [|c t IH]; [reflexivity|].
  pose proof (startswith_rstrip (c :: t) Hp) as Hs.
  rewrite rstrip_cons in *. cbn [contains].
  destruct (rstrip t) as [|x r] eqn:Er.
  - destruct (isspace c) eqn:Ec.
    + destruct p as [|a p]; [congruence|].
      change (contains (a :: p) []) with false in *.
      change (startswith (a :: p) []) with false in Hs.
      now rewrite <- Hs, <- IH.
    + change (contains p [c]) with (startswith p [c] || contains p []).
      now rewrite Hs, IH.
  - change (contains p (c :: x :: r))
      with (startswith p (c :: x :: r) || contains p (x :: r)).
    now rewrite Hs, IH.
Qed.

Lemma contains_lstrip (p s : str) :
  no_space p -> p <> [] -> contains p (lstrip s) = contains p s.
Proof.
  intros Hp Hne. induction s as [|c t IH]; [reflexivity|].
  cbn [lstrip]. destruct (isspace c) eqn:Ec; [|reflexivity].
  rewrite IH. cbn [contains]. destruct p as [|a p]; [congruence|].
  rewrite startswith_space; [reflexivity | apply Hp; now left | exact Ec].
Qed.

Section DigitsAreNotSpaces.

Variable isdigit : char -> bool.
Hypothesis digit_not_space : forall c, isdigit c = true -> isspace c = false.

Lemma space_not_digit (c : char) : isspace c = true -> isdigit c = false.
Proof.
  intro Hc. destruct (isdigit c) eqn:Ed; [|reflexivity].
  apply digit_not_space in Ed. congruence.
Qed.

Lemma any_isdigit_lstrip (s : str) :
  any_isdigit isdigit (lstrip s) = any_isdigit isdigit s.
Proof.
  unfold any_isdigit. induction s as [|c t IH]; [reflexivity|].
  cbn [lstrip]. destruct (isspace c) eqn:Ec; [|reflexivity].
  cbn [existsb]. now rewrite IH, space_not_digit.
Qed.

Lemma any_isdigit_rstrip (s : str) :
  any_isdigit isdigit (rstrip s) = any_isdigit isdigit s.
Proof.
  unfold any_isdigit. induction s as [|c t IH]; [reflexivity|].
  rewrite rstrip_cons. cbn [existsb].
  destruct (rstrip t) as [|x r] eqn:Er.
  - destruct (isspace c) eqn:Ec.
    + now rewrite <- IH, space_not_digit.
    + now rewrite <- IH.
  - now rewrite <- IH.
Qed.

(** Stripping a line does not change the outcome of the first test. *)
Lemma dotted_with_digit_strip (line : str) :
  dotted_with_digit isdigit (strip line) = dotted_with_digit isdigit line.
Proof.
  assert (Hd : no_space (u "...")).
  { intros c Hc. cbv in Hc. intuition (subst; reflexivity). }
  assert (Hne : u "..." <> []) by discriminate.
  unfold dotted_with_digit, strip.
  now rewrite contains_rstrip, contains_lstrip,
              any_isdigit_rstrip, any_isdigit_lstrip.
Qed.

End DigitsAreNotSpaces.

Lemma ascii_digit_not_space (c : char) :
  ascii_isdigit c = true -> isspace c = false.
Proof.
  unfold ascii_isdigit, isspace. intro H.
  apply andb_true_iff in H. destruct H as [H1 H2].
  apply N.leb_le in H1. apply N.leb_le in H2.
  repeat match goal with
         | |- context [(?a <=? ?b)%N] => destruct (N.leb_spec a b)
         | |- context [(?a =? ?b)%N] => destruct (N.eqb_spec a b)
         end; try reflexivity; lia.
Qed.

(** ** The document preprocessor *)

Section PreprocessorFacts.

Variable isdigit : char -> bool.

Lemma toc_text_append_some (s t : str) (st : locals) :
  toc_text st = Some t ->
  toc_text_append s st = (set_toc_text (Some (t ++ s)) st, Return tt).
Proof. intro E. unfold toc_text_append. now rewrite E. Qed.

(** The two tests of the code, together, are the specification's test. *)
Lemma spec_candidate_tests (s : str) :
  spec_candidate isdigit s
  = dotted_with_digit isdigit s || ends_in_digit isdigit s.
Proof.
  unfold spec_candidate, dotted_with_digit, ends_in_digit, any_isdigit.
  destruct s; [now rewrite orb_false_r | reflexivity].
Qed.

Lemma scan_line_step (line t : str) (st : locals) :
  toc_text st = Some t ->
  scan_line isdigit line st
  = (if spec_candidate isdigit (strip line)
     then after_match (strip line) t st else st, Return tt).
Proof.
  intro E. rewrite spec_candidate_tests. unfold scan_line.
  destruct (dotted_with_digit isdigit (strip line)); simpl.
  - unfold bind. now rewrite toc_text_append_some with (t := t).
  - destruct (ends_in_digit isdigit (strip line)); [|reflexivity].
    unfold bind. now rewrite toc_text_append_some with (t := t).
Qed.

Lemma scan_lines_run (lines : list str) :
  forall (t : str) (st : locals),
    toc_text st = Some t ->
    for_each lines (scan_line isdigit) st
    = (after_lines isdigit lines t st, Return tt).
Proof.
  induction lines as [|line lines IH]; intros t st E.
  - unfold after_lines; simpl. rewrite app_nil_r, Z.add_0_r.
    destruct st; simpl in *; now subst.
  - simpl for_each. unfold bind. rewrite scan_line_step with (t := t) by exact E.
    unfold after_lines. cbn [map filter].
    destruct (spec_candidate isdigit (strip line)).
    + rewrite IH with (t := t ++ bullet_line (strip line)) by reflexivity.
      unfold after_lines, after_match.
      cbn [map concat length toc_text full_text toc_error found_toc_lines].
      rewrite <- app_assoc. do 2 f_equal. lia.
    + now rewrite IH with (t := t).
Qed.

(** The page loop of the fallback scan, on pages that can be read. *)
Lemma scan_pages_run (texts : list str) (sufo : list (outcome str))
      (get_toc0 : outcome (list toc_entry)) (t : str) (st : locals) :
  toc_text st = Some t ->
  for_each (range (length texts))
           (scan_page isdigit
              (mkDocument get_toc0 (map Return texts ++ sufo))) st
  = (after_lines isdigit (concat (map split_nl texts)) t st, Return tt).
Proof.
  intro E. unfold range, scan_page, get_text; simpl page_texts.
  pose proof (@for_each_seq_nth locals (outcome str)
    (fun _ o => text <- lift o ;; for_each (split_nl text) (scan_line isdigit))
    (Raise (u "page not in document")) (map Return texts) [] sufo st) as H.
  simpl in H. rewrite length_map in H. rewrite H. clear H.
  rewrite (for_each_combine_return
             (fun _ text => for_each (split_nl text) (scan_line isdigit))).
  rewrite (for_each_combine_snd
             (fun text => for_each (split_nl text) (scan_line isdigit))).
  rewrite for_each_concat. now apply scan_lines_run.
Qed.

Lemma fallback_scan_run (texts : list str)
      (get_toc0 : outcome (list toc_entry)) (t : str) (st : locals) :
  toc_text st = Some t ->
  fallback_scan isdigit (mkDocument get_toc0 (map Return texts)) st
  = (let ms := matched_lines isdigit texts in
     if length ms <? 3
     then mkLocals None (full_text st) (Some toc_warning)
                   (Z.of_nat (length ms))
     else mkLocals (Some (t ++ concat (map bullet_line ms))) (full_text st)
                   (toc_error st) (Z.of_nat (length ms)),
     Return tt).
Proof.
  intro E. unfold fallback_scan, page_count; simpl page_texts.
  assert (Hn : Nat.min max_toc_pages (length (map Return texts : list (outcome str)))
               = length (firstn max_toc_pages texts))
    by now rewrite length_firstn, length_map.
  assert (Ht : map Return texts
               = map Return (firstn max_toc_pages texts)
                 ++ map Return (skipn max_toc_pages texts) :> list (outcome str))
    by now rewrite <- map_app, firstn_skipn.
  rewrite Hn, Ht.
  unfold bind at 1. unfold modify at 1. unfold bind at 1.
  rewrite scan_pages_run with (t := t) by exact E.
  unfold bind, get, matched_lines, after_lines.
  cbn [found_toc_lines set_found_toc_lines].
  set (ms := filter _ _).
  destruct (Z.ltb_spec (0 + Z.of_nat (length ms)) 3) as [Hlt|Hge];
    destruct (Nat.ltb_spec (length ms) 3) as [Hlt'|Hge']; try lia.
  - unfold modify; simpl. reflexivity.
  - unfold ret. reflexivity.
Qed.

Lemma render_toc_run (toc : list toc_entry) :
  forall (t : str) (st : locals),
    toc_text st = Some t ->
    render_toc toc st
    = (set_toc_text (Some (t ++ concat (map toc_line toc))) st, Return tt).
Proof.
  unfold render_toc.
  induction toc as [|entry toc IH]; intros t st E; simpl.
  - rewrite app_nil_r. unfold ret, set_toc_text.
    destruct st; simpl in *. now rewrite E.
  - unfold bind. rewrite toc_text_append_some with (t := t) by exact E.
    rewrite IH with (t := t ++ toc_line entry) by reflexivity.
    unfold set_toc_text; simpl. now rewrite <- app_assoc.
Qed.

Lemma full_text_appends_run {A} (f : A -> str) (xs : list A) :
  forall st : locals,
    for_each xs (fun x => full_text_append (f x)) st
    = (set_full_text (full_text st ++ concat (map f xs)) st, Return tt).
Proof.
  induction xs as [|x xs IH]; intro st; simpl.
  - rewrite app_nil_r. now destruct st.
  - unfold bind, full_text_append at 1, modify. rewrite IH.
    unfold set_full_text; simpl. now rewrite <- app_assoc.
Qed.

Lemma extract_full_text_run (texts : list str)
      (get_toc0 : outcome (list toc_entry)) (st : locals) :
  extract_full_text (mkDocument get_toc0 (map Return texts)) st
  = (set_full_text (full_text st ++ marked_pages texts) st, Return tt).
Proof.
  unfold extract_full_text, range, page_count, get_text; simpl page_texts.
  pose proof (@for_each_seq_nth locals (outcome str)
    (fun i o => page_text <- lift o ;; full_text_append (page_block i page_text))
    (Raise (u "page not in document")) (map Return texts) [] [] st) as H.
  simpl in H. rewrite app_nil_r in H. rewrite H. clear H.
  rewrite length_map.
  rewrite (for_each_combine_return
             (fun i page_text => full_text_append (page_block i page_text))).
  rewrite (full_text_appends_run
             (fun p : nat * str => page_block (fst p) (snd p))).
  do 3 f_equal. unfold marked_pages.
  rewrite <- seq_shift. generalize 0 as a.
  induction texts as [|x texts IH]; intro a;
    cbn [map combine seq concat length fst snd]; [reflexivity|].
  rewrite IH. unfold page_block. do 4 f_equal.
  now rewrite Nat2Z.inj_succ, Z.add_1_r.
Qed.

Lemma try_body_embedded (fs : filesystem) (path : str)
      (entry : toc_entry) (toc : list toc_entry) (texts : list str) :
  fitz_open fs path
    = Return (mkDocument (Return (entry :: toc)) (map Return texts)) ->
  try_body isdigit fs path initial_locals
  = (mkLocals (Some (toc_header ++ concat (map toc_line (entry :: toc))))
              (marked_pages texts) None 0, Return tt).
Proof.
  intro Ho. unfold try_body. unfold bind at 1, lift at 1. rewrite Ho.
  unfold bind at 1, lift at 1. cbn [get_toc].
  unfold bind at 1.
  rewrite render_toc_run with (t := toc_header) by reflexivity.
  now rewrite extract_full_text_run.
Qed.

Lemma try_body_fallback (fs : filesystem) (path : str) (texts : list str) :
  fitz_open fs path = Return (mkDocument (Return []) (map Return texts)) ->
  try_body isdigit fs path initial_locals
  = (let ms := matched_lines isdigit texts in
     if length ms <? 3
     then mkLocals None (marked_pages texts) (Some toc_warning)
                   (Z.of_nat (length ms))
     else mkLocals (Some (toc_header ++ concat (map bullet_line ms)))
                   (marked_pages texts) None (Z.of_nat (length ms)),
     Return tt).
Proof.
  intro Ho. unfold try_body. unfold bind at 1, lift at 1. rewrite Ho.
  unfold bind at 1, lift at 1. cbn [get_toc].
  unfold bind at 1.
  rewrite fallback_scan_run with (t := toc_header) by reflexivity.
  cbv zeta. rewrite extract_full_text_run.
  now destruct (length (matched_lines isdigit texts) <? 3).
Qed.

(** *** Claims about the outline and the full text *)

(** C1.  A document without an embedded outline whose pages can all be
    read: when the fallback scan of the first pages matches fewer than 3
    lines, the outline of the result is absent and the warning is set, with
    no fatal error; when it matches 3 or more, the outline is the heading
    followed by exactly the matched lines, one bullet each, in document
    order, and no warning is set. *)
Theorem fallback_outline_threshold
        (fs : filesystem) (path : str) (texts : list str) :
  os_path_exists fs path = true ->
  fitz_open fs path = Return (mkDocument (Return []) (map Return texts)) ->
  let r := extract_pdf_data isdigit fs path in
  let matched := matched_lines isdigit texts in
  (length matched < 3 ->
   res_toc_text r = None /\ res_toc_error r = Some toc_warning
   /\ res_pdf_error r = None)
  /\ (3 <= length matched ->
      res_toc_text r = Some (toc_header ++ concat (map bullet_line matched))
      /\ res_toc_error r = None /\ res_pdf_error r = None).
Proof.
  intros Hx Ho r matched. subst r. unfold extract_pdf_data.
  rewrite Hx. cbn [negb]. erewrite try_body_fallback by exact Ho. cbv zeta.
  fold matched.
  destruct (Nat.ltb_spec (length matched) 3) as [Hlt|Hge];
    split; intro H; try lia; repeat split; reflexivity.
Qed.

(** C2, as amended.  The tests are made on the stripped line: a line is
    taken as a candidate exactly when its stripped form has three periods
    in a row and a digit, or is non-empty, ends in a digit and is longer
    than 3; a candidate adds the bullet ["- " + stripped line + "\n"] to the
    outline text and one to the count, any other line changes nothing. *)
Theorem scan_line_classification (line t : str) (st : locals) :
  toc_text st = Some t ->
  exists st',
    scan_line isdigit line st = (st', Return tt)
    /\ (spec_candidate isdigit (strip line) = true ->
        toc_text st' = Some (t ++ u "- " ++ strip line ++ nl)
        /\ found_toc_lines st' = (found_toc_lines st + 1)%Z
        /\ full_text st' = full_text st /\ toc_error st' = toc_error st)
    /\ (spec_candidate isdigit (strip line) = false -> st' = st).
Proof.
  intro E. rewrite scan_line_step with (t := t) by exact E.
  destruct (spec_candidate isdigit (strip line)); eexists;
    (split; [reflexivity|]); split; intro H; try discriminate H.
  - repeat split.
  - reflexivity.
Qed.

(** C3, as amended.  A document with a non-empty embedded outline that is
    read without an exception: the outline text is the heading and an empty
    line followed by one record per entry, in order; a record is
    [<indent>- <title> (Seite <page>)] and a line feed, its indent being
    [2 * (level - 1)] spaces (none for a level below 1), so that a greater
    level never has a smaller indent.  When no title holds a line feed these
    records are exactly the lines after the heading, one per entry. *)
Theorem embedded_outline_rendering
        (fs : filesystem) (path : str) (entry : toc_entry)
        (toc : list toc_entry) (texts : list str) :
  os_path_exists fs path = true ->
  fitz_open fs path
    = Return (mkDocument (Return (entry :: toc)) (map Return texts)) ->
  let r := extract_pdf_data isdigit fs path in
  let text := toc_header ++ concat (map toc_line (entry :: toc)) in
  res_toc_text r = Some text
  /\ res_toc_error r = None
  /\ (Forall (fun e => single_line (entry_title e)) (entry :: toc) ->
      split_nl text
      = [toc_heading; []] ++ map toc_line_text (entry :: toc) ++ [[]])
  /\ (forall level title page,
         toc_line_text (level, title, page)
         = repeat 32%N (2 * Z.to_nat (level - 1)) ++ u "- " ++ title
             ++ u " (Seite " ++ format_int page ++ u ")")
  /\ (forall l1 l2 : Z,
         (l1 <= l2)%Z -> length (toc_indent l1) <= length (toc_indent l2)).
Proof.
  intros Hx Ho r text. subst r. unfold extract_pdf_data.
  rewrite Hx. cbn [negb]. erewrite try_body_embedded by exact Ho.
  fold text. split; [reflexivity|]. split; [reflexivity|]. split; [|split].
  - intro Ht. subst text. unfold toc_header.
    rewrite <- !app_assoc.
    rewrite split_nl_line by (apply single_line_forallb; reflexivity).
    change (nl ++ concat (map toc_line (entry :: toc)))
      with ([] ++ nl ++ concat (map toc_line (entry :: toc))).
    rewrite split_nl_line by (intros []).
    unfold toc_line. rewrite <- (map_map toc_line_text (fun l => l ++ nl)).
    rewrite split_nl_unlines; [reflexivity|].
    apply Forall_map. revert Ht. apply Forall_impl.
    intros [[level title] page] Hs. unfold toc_line_text, toc_indent.
    repeat apply single_line_app;
      try (apply single_line_forallb; reflexivity).
    + apply single_line_str_mul. apply single_line_forallb; reflexivity.
    + exact Hs.
    + apply single_line_format_int.
  - intros level title page. unfold toc_line_text.
    now rewrite toc_indent_spaces.
  - intros l1 l2 Hl. unfold toc_indent. rewrite !length_str_mul. nia.
Qed.

(** C4, as amended.  A document that opens and whose outline and pages can
    all be read, whatever its outline: the full text is the concatenation,
    in page order, of one block per page, ["\n\n[Seite N]\n"] followed by
    the page's raw text, with N running over 1, 2, ... in step with the
    pages; no fatal error is reported. *)
Theorem full_text_page_markers
        (fs : filesystem) (path : str) (toc : list toc_entry)
        (texts : list str) :
  os_path_exists fs path = true ->
  fitz_open fs path = Return (mkDocument (Return toc) (map Return texts)) ->
  let r := extract_pdf_data isdigit fs path in
  res_full_text r = Some (marked_pages texts) /\ res_pdf_error r = None.
Proof.
  intros Hx Ho r. subst r. unfold extract_pdf_data. rewrite Hx. cbn [negb].
  destruct toc as [|entry toc].
  - erewrite try_body_fallback by exact Ho. cbv zeta.
    now destruct (length (matched_lines isdigit texts) <? 3).
  - now erewrite try_body_embedded by exact Ho.
Qed.

(** C5, what the code does.  For a path that does not exist the function
    returns at once with full text and outline absent; the "not found"
    message is the third component, the outline warning, and the fourth
    component, the fatal error, is absent. *)
Theorem missing_document_result (fs : filesystem) (path : str) :
  os_path_exists fs path = false ->
  extract_pdf_data isdigit fs path
  = (None, None, Some (not_found_message path), None).
Proof. intro Hx. unfold extract_pdf_data. now rewrite Hx. Qed.

(** C10.  A line that passes both tests of the heuristic, be it taken as
    split or as stripped, adds its bullet to the outline text once and
    raises the count by exactly one. *)
Theorem line_matching_both_tests_counted_once (line t : str) (st : locals) :
  (forall c, isdigit c = true -> isspace c = false) ->
  toc_text st = Some t ->
  (dotted_with_digit isdigit line = true
   /\ ends_in_digit isdigit line = true)
  \/ (dotted_with_digit isdigit (strip line) = true
      /\ ends_in_digit isdigit (strip line) = true) ->
  scan_line isdigit line st
  = (mkLocals (Some (t ++ bullet_line (strip line))) (full_text st)
              (toc_error st) (found_toc_lines st + 1), Return tt).
Proof.
  intros Hd E H.
  assert (H1 : dotted_with_digit isdigit (strip line) = true).
  { destruct H as [[H _]|[H _]]; [|exact H].
    now rewrite dotted_with_digit_strip. }
  unfold scan_line. rewrite H1. unfold bind.
  now rewrite toc_text_append_some with (t := t).
Qed.

End PreprocessorFacts.

(** Witnesses and counterexamples for the preprocessor claims. *)

Lemma fallback_outline_threshold_witness :
  res_toc_text
    (extract_pdf_data ascii_isdigit
       (fs_with (Return (mkDocument (Return []) (map Return [sample_contents_page]))))
       PDF_PATH)
  = Some (toc_header ++ u "- Einleitung ... 3" ++ nl ++ u "- Methoden 12" ++ nl
            ++ u "- Anhang 40" ++ nl).
Proof.
  destruct (@fallback_outline_threshold ascii_isdigit
              (fs_with (Return (mkDocument (Return [])
                                           (map Return [sample_contents_page]))))
              PDF_PATH [sample_contents_page] eq_refl eq_refl) as [_ H].
  destruct H as [H _]; [vm_compute; lia | exact H].
Defined.

Lemma scan_line_classification_witness :
  exists st',
    scan_line ascii_isdigit (u "  Methoden 12 ") initial_locals = (st', Return tt)
    /\ toc_text st' = Some (toc_header ++ u "- Methoden 12" ++ nl)
    /\ found_toc_lines st' = 1%Z.
Proof.
  destruct (@scan_line_classification ascii_isdigit (u "  Methoden 12 ")
              toc_header initial_locals eq_refl) as (st' & E & Hyes & _).
  exists st'. split; [exact E|].
  destruct (Hyes eq_refl) as (Ht & Hf & _). split; [exact Ht | exact Hf].
Defined.

(** C2 as stated fails: a line with a trailing blank does not itself end in a
    digit, yet it is taken; a line of length 4 that ends in a digit is a
    candidate by the sentence, yet its stripped form is too short and it is
    not taken. *)
Lemma candidate_test_on_raw_line_counterexample :
  (spec_candidate ascii_isdigit (u "Methoden 12 ") = false
   /\ scan_line ascii_isdigit (u "Methoden 12 ") initial_locals
      = (mkLocals (Some (toc_header ++ u "- Methoden 12" ++ nl)) [] None 1,
         Return tt))
  /\ (spec_candidate ascii_isdigit (u "  12") = true
      /\ scan_line ascii_isdigit (u "  12") initial_locals
         = (initial_locals, Return tt)).
Proof. repeat split. Qed.

Lemma embedded_outline_rendering_witness :
  res_toc_text
    (extract_pdf_data ascii_isdigit
       (fs_with (Return (mkDocument (Return sample_outline)
                                    (map Return [sample_contents_page]))))
       PDF_PATH)
  = Some (toc_header ++ u "- Einleitung (Seite 3)" ++ nl
            ++ u "  - Ziele (Seite 4)" ++ nl ++ u "- Methoden (Seite 12)" ++ nl)
  /\ split_nl (toc_header ++ concat (map toc_line sample_outline))
     = [ toc_heading; []; u "- Einleitung (Seite 3)"; u "  - Ziele (Seite 4)";
         u "- Methoden (Seite 12)"; [] ].
Proof.
  pose proof (@embedded_outline_rendering ascii_isdigit
                (fs_with (Return (mkDocument (Return sample_outline)
                                    (map Return [sample_contents_page]))))
                PDF_PATH (1%Z, u "Einleitung", 3%Z)
                [(2%Z, u "Ziele", 4%Z); (1%Z, u "Methoden", 12%Z)]
                [sample_contents_page] eq_refl eq_refl) as (Ht & _ & Hl & _).
  split; [exact Ht|]. apply Hl.
  repeat constructor; apply single_line_forallb; reflexivity.
Defined.

(** C3 as stated fails: the line the sentence describes is not in the
    rendered outline, not even as a part of a line; and a title that holds a
    line feed spreads its entry over two lines. *)
Lemma outline_line_format_counterexample :
  (res_toc_text
     (extract_pdf_data ascii_isdigit
        (fs_with (Return (mkDocument (Return [(1%Z, u "Einleitung", 3%Z)]) [])))
        PDF_PATH)
   = Some (toc_header ++ u "- Einleitung (Seite 3)" ++ nl)
   /\ spec_outline_line (1%Z, u "Einleitung", 3%Z) = u "Einleitung (Page 3)"
   /\ contains (spec_outline_line (1%Z, u "Einleitung", 3%Z))
               (toc_header ++ u "- Einleitung (Seite 3)" ++ nl) = false)
  /\ (res_toc_text
        (extract_pdf_data ascii_isdigit
           (fs_with (Return (mkDocument
                               (Return [(1%Z, u "Ein" ++ nl ++ u "leitung", 3%Z)])
                               [])))
           PDF_PATH)
      = Some (toc_header ++ u "- Ein" ++ nl ++ u "leitung (Seite 3)" ++ nl)
      /\ split_nl (toc_header ++ u "- Ein" ++ nl ++ u "leitung (Seite 3)" ++ nl)
         = [toc_heading; []; u "- Ein"; u "leitung (Seite 3)"; []]).
Proof. repeat split. Qed.

Lemma full_text_page_markers_witness :
  res_full_text
    (extract_pdf_data ascii_isdigit
       (fs_with (Return (mkDocument (Return sample_outline)
                                    (map Return [sample_contents_page; u "Text"]))))
       PDF_PATH)
  = Some (nl ++ nl ++ u "[Seite 1]" ++ nl ++ sample_contents_page
            ++ nl ++ nl ++ u "[Seite 2]" ++ nl ++ u "Text").
Proof.
  exact (proj1 (@full_text_page_markers ascii_isdigit
                  (fs_with (Return (mkDocument (Return sample_outline)
                                      (map Return [sample_contents_page; u "Text"]))))
                  PDF_PATH sample_outline [sample_contents_page; u "Text"]
                  eq_refl eq_refl)).
Defined.

(** C4 as stated fails: the marker the sentence describes does not occur in
    the full text. *)
Lemma page_marker_counterexample :
  res_full_text
    (extract_pdf_data ascii_isdigit
       (fs_with (Return (mkDocument (Return []) [Return (u "Text")])))
       PDF_PATH)
  = Some (nl ++ nl ++ u "[Seite 1]" ++ nl ++ u "Text")
  /\ spec_page_marker 1 = u "[Page 1]"
  /\ contains (spec_page_marker 1)
              (nl ++ nl ++ u "[Seite 1]" ++ nl ++ u "Text") = false.
Proof. repeat split. Qed.

Lemma missing_document_result_witness :
  extract_pdf_data ascii_isdigit fs_empty PDF_PATH
  = (None, None,
     Some (u "Fehler: Die Handbuchdatei 'Oeffentliches_Gestalten.pdf' wurde nicht gefunden."),
     None).
Proof.
  exact (@missing_document_result ascii_isdigit fs_empty PDF_PATH eq_refl).
Defined.

Lemma line_matching_both_tests_counted_once_witness :
  scan_line ascii_isdigit (u " Einleitung ... 3") initial_locals
  = (mkLocals (Some (toc_header ++ u "- Einleitung ... 3" ++ nl)) [] None 1,
     Return tt).
Proof.
  exact (@line_matching_both_tests_counted_once ascii_isdigit
           (u " Einleitung ... 3") toc_header initial_locals
           ascii_digit_not_space eq_refl
           (or_intror (conj eq_refl eq_refl))).
Defined.

(** ** The suggestion requester *)

Lemma emit_run (e : event) (rt : runtime) :
  emit e rt = (mkRuntime (session rt) (trace rt ++ [e]), Return tt).
Proof. reflexivity. Qed.

Ltac run_requester :=
  unfold get_ai_suggestions, initialize_pdf_data, on_submit, main,
         try_except, bind, emit, modify, get, lift, ret;
  cbn [session trace fst snd negb].

Ltac flatten_trace :=
  cbn [session trace fst snd];
  repeat rewrite <- app_assoc; cbn [app].

(** Every way a call of [get_ai_suggestions] can go. *)
Lemma get_ai_suggestions_run (w : world) (d : str) (rt : runtime) :
  get_ai_suggestions w d rt
  = let after evs v :=
        (mkRuntime (session rt) (trace rt ++ call_get_ai_suggestions d :: evs),
         Return v) in
    if truthy (API_KEY w) then
      match read_bytes w PDF_PATH with
      | Raise e =>
          after [genai_configure (API_KEY w); st_error (api_failure_message e)]
                None
      | Return pdf =>
          let req := request_for pdf d in
          match generate_content w MODEL_NAME req with
          | Raise e =>
              after [genai_configure (API_KEY w); api_call MODEL_NAME req;
                     st_error (api_failure_message e)] None
          | Return resp =>
              match response_text resp with
              | Raise e =>
                  after [genai_configure (API_KEY w); api_call MODEL_NAME req;
                         st_error (api_failure_message e)] None
              | Return text =>
                  after [genai_configure (API_KEY w); api_call MODEL_NAME req]
                        (Some text)
              end
          end
      end
    else after [st_error no_key_message] None.
Proof.
  run_requester. unfold request_for.
  destruct (truthy (API_KEY w)); cbn [negb].
  - destruct (read_bytes w PDF_PATH) as [pdf|e]; [|now flatten_trace].
    cbn [session trace].
    destruct (generate_content w MODEL_NAME _) as [resp|e]; [|now flatten_trace].
    destruct (response_text resp) as [text|e]; now flatten_trace.
  - now flatten_trace.
Qed.

(** C8.  Invoked without a key (absent or empty), the requester reports the
    configuration error and returns [None]; the entry mark and that error are
    all it adds to the run, so no request to the service is made. *)
Theorem missing_key_no_network_call (w : world) (d : str) (rt : runtime) :
  truthy (API_KEY w) = false ->
  exists rt',
    get_ai_suggestions w d rt = (rt', Return None)
    /\ session rt' = session rt
    /\ trace rt'
       = trace rt ++ [call_get_ai_suggestions d; st_error no_key_message]
    /\ filter is_api_call (trace rt') = filter is_api_call (trace rt).
Proof.
  intro Hk. rewrite get_ai_suggestions_run, Hk. cbv zeta.
  eexists. split; [reflexivity|]. cbn [session trace].
  repeat split. rewrite filter_app. cbn. now rewrite app_nil_r.
Qed.

(** C9.  With a key configured the requester never ends in an exception;
    when the PDF is read, the service answers and the answer has a text, it
    returns exactly that text; when reading the PDF, the request or the
    reading of the answer's text raises, it returns [None] and the last thing
    it shows is the error
    ["Fehler bei der Kommunikation mit der Gemini API: " + str(e)], which
    holds the exception's text. *)
Theorem requester_boundary (w : world) (d : str) (rt : runtime) :
  truthy (API_KEY w) = true ->
  let rt' := fst (get_ai_suggestions w d rt) in
  let o := snd (get_ai_suggestions w d rt) in
  (exists v, o = Return v)
  /\ (forall pdf resp text,
         read_bytes w PDF_PATH = Return pdf ->
         generate_content w MODEL_NAME (request_for pdf d) = Return resp ->
         response_text resp = Return text ->
         o = Return (Some text))
  /\ (forall e,
         read_bytes w PDF_PATH = Raise e
         \/ (exists pdf,
                read_bytes w PDF_PATH = Return pdf
                /\ (generate_content w MODEL_NAME (request_for pdf d) = Raise e
                    \/ exists resp,
                      generate_content w MODEL_NAME (request_for pdf d)
                      = Return resp
                      /\ response_text resp = Raise e)) ->
         o = Return None
         /\ (exists evs,
                trace rt'
                = evs ++ [st_error
                            (u "Fehler bei der Kommunikation mit der Gemini API: "
                               ++ e)])
         /\ contains e (u "Fehler bei der Kommunikation mit der Gemini API: "
                          ++ e) = true).
Proof.
  intros Hk rt' o. subst rt' o. rewrite get_ai_suggestions_run, Hk. cbv zeta.
  split; [|split].
  - destruct (read_bytes w PDF_PATH) as [pdf|e]; [|now eexists].
    destruct (generate_content w MODEL_NAME _) as [resp|e]; [|now eexists].
    destruct (response_text resp); now eexists.
  - intros pdf resp text Hr Hg Ht. now rewrite Hr, Hg, Ht.
  - intros e [Hr|(pdf & Hr & [Hg|(resp & Hg & Ht)])].
    + rewrite Hr. split; [reflexivity|]. split; [|apply contains_suffix].
      cbn [fst trace].
      exists (trace rt ++ [call_get_ai_suggestions d; genai_configure (API_KEY w)]).
      rewrite <- (app_assoc (trace rt)). reflexivity.
    + rewrite Hr, Hg. split; [reflexivity|]. split; [|apply contains_suffix].
      cbn [fst trace].
      exists (trace rt ++ [call_get_ai_suggestions d; genai_configure (API_KEY w);
                           api_call MODEL_NAME (request_for pdf d)]).
      rewrite <- (app_assoc (trace rt)). reflexivity.
    + rewrite Hr, Hg, Ht. split; [reflexivity|]. split; [|apply contains_suffix].
      cbn [fst trace].
      exists (trace rt ++ [call_get_ai_suggestions d; genai_configure (API_KEY w);
                           api_call MODEL_NAME (request_for pdf d)]).
      rewrite <- (app_assoc (trace rt)). reflexivity.
Qed.

(** ** The submit branch of the page *)

Lemma long_enough (d : str) : 20 <= len d -> too_short (Some d) = false.
Proof.
  intro H. unfold too_short, truthy, len in *.
  destruct d as [|c d]; [simpl in H; lia|]. cbn [negb orb].
  apply Nat.ltb_ge. exact H.
Qed.

Lemma on_submit_too_short (w : world) (description : option str) (rt : runtime) :
  too_short description = true ->
  on_submit w description rt
  = (mkRuntime (session rt) (trace rt ++ [st_warning validation_warning]),
     Return tt).
Proof. intro H. unfold on_submit. now rewrite H. Qed.

Ltac run_main :=
  unfold main, initialize_pdf_data, try_except, bind, emit, modify, get, lift,
         ret;
  cbn [session trace fst snd negb pdf_initialized].

Ltac count_calls :=
  flatten_trace; rewrite ?filter_app; cbn [filter is_requester_call is_api_call];
  rewrite ?app_nil_r; try reflexivity.

(** C7, as amended.  A description that is missing, empty or shorter than 20
    characters never leads to the requester or to the service: the submit
    branch only shows the validation warning, which on a loaded page is the
    last thing before the footer.  A description of 20 characters or more,
    submitted on a loaded page, invokes the requester once when the key is
    configured. *)
Theorem description_length_gate (w : world) (form : form_input) (rt : runtime) :
  let rt' := fst (main w form rt) in
  (too_short (problem_description form) = true ->
   filter is_requester_call (trace rt') = filter is_requester_call (trace rt)
   /\ filter is_api_call (trace rt') = filter is_api_call (trace rt)
   /\ (forall rt0,
          on_submit w (problem_description form) rt0
          = (mkRuntime (session rt0)
                       (trace rt0 ++ [st_warning validation_warning]),
             Return tt))
   /\ (submit_button form = true -> page_loads w rt = true ->
       exists evs,
         trace rt' = evs ++ [st_warning validation_warning;
                             st_chrome "render_footer"]))
  /\ (forall d,
         problem_description form = Some d -> 20 <= len d ->
         submit_button form = true -> page_loads w rt = true ->
         truthy (API_KEY w) = true ->
         filter is_requester_call (trace rt')
         = filter is_requester_call (trace rt) ++ [call_get_ai_suggestions d]).
Proof.
  intro rt'. subst rt'. split.
  - intro Hs. split; [|split; [|split]].
    + run_main.
      destruct (pdf_initialized (session rt)); cbn [negb];
        [|destruct (read_bytes w PDF_PATH)]; cbn [negb];
        (destruct (submit_button form);
         [rewrite ?on_submit_too_short by exact Hs|]); count_calls.
    + run_main.
      destruct (pdf_initialized (session rt)); cbn [negb];
        [|destruct (read_bytes w PDF_PATH)]; cbn [negb];
        (destruct (submit_button form);
         [rewrite ?on_submit_too_short by exact Hs|]); count_calls.
    + intro rt0. now apply on_submit_too_short.
    + intros Hb Hl. unfold page_loads in Hl. run_main. rewrite Hb.
      destruct (pdf_initialized (session rt)); cbn [negb orb] in *.
      * rewrite on_submit_too_short by exact Hs. flatten_trace.
        eexists (trace rt ++ [_; _; _; _; _; _; _]).
        rewrite <- app_assoc. reflexivity.
      * destruct (read_bytes w PDF_PATH); [|discriminate Hl].
        cbn [negb]. rewrite on_submit_too_short by exact Hs. flatten_trace.
        eexists (trace rt ++ [_; _; _; _; _; _; _; _; _]).
        rewrite <- app_assoc. reflexivity.
  - intros d Hd Hlen Hb Hl Hk. unfold page_loads in Hl.
    assert (Hrun : forall rt0,
               filter is_requester_call
                      (trace (fst (on_submit w (Some d) rt0)))
               = filter is_requester_call (trace rt0)
                        ++ [call_get_ai_suggestions d]).
    { intro rt0. unfold on_submit. rewrite (long_enough d Hlen), Hk. cbn [negb].
      unfold bind at 1. rewrite emit_run.
      unfold bind at 1. rewrite get_ai_suggestions_run, Hk. cbv zeta.
      destruct (read_bytes w PDF_PATH) as [pdf|e].
      - destruct (generate_content w MODEL_NAME _) as [resp|e].
        + destruct (response_text resp) as [[|c t]|e];
            unfold bind, emit, modify; count_calls.
        + unfold bind, emit, modify; count_calls.
      - unfold bind, emit, modify; count_calls. }
    run_main. rewrite Hb, Hd.
    destruct (pdf_initialized (session rt)); cbn [negb orb] in *.
    + destruct (on_submit w (Some d) _) as [rt1 [[]|e]] eqn:E;
        apply (f_equal (fun x => trace (fst x))) in E; cbn [fst] in E;
        cbn [fst trace]; rewrite ?filter_app, <- E, Hrun; count_calls.
    + destruct (read_bytes w PDF_PATH); [|discriminate Hl]. cbn [negb].
      destruct (on_submit w (Some d) _) as [rt1 [[]|e]] eqn:E;
        apply (f_equal (fun x => trace (fst x))) in E; cbn [fst] in E;
        cbn [fst trace]; rewrite ?filter_app, <- E, Hrun; count_calls.
Qed.

(** Witnesses and a counterexample for the requester claims. *)

Lemma description_length_gate_witness :
  filter is_requester_call
    (trace (fst (main world_ok (mkForm (Some twenty_characters) true)
                      fresh_runtime)))
  = [call_get_ai_suggestions twenty_characters]
  /\ filter is_requester_call
       (trace (fst (main world_ok (mkForm (Some (u "zu kurz")) true)
                         fresh_runtime)))
     = [].
Proof.
  split.
  - exact (proj2 (description_length_gate world_ok
                    (mkForm (Some twenty_characters) true) fresh_runtime)
                 twenty_characters eq_refl (le_n 20) eq_refl eq_refl eq_refl).
  - exact (proj1 (proj1 (description_length_gate world_ok
                           (mkForm (Some (u "zu kurz")) true) fresh_runtime)
                        eq_refl)).
Defined.

(** C7 as stated fails: without a key, a submitted description of exactly 20
    characters passes the length test and still does not reach the
    requester; the page shows the missing-key error instead. *)
Lemma valid_description_without_key_counterexample :
  len twenty_characters = 20
  /\ too_short (Some twenty_characters) = false
  /\ trace (fst (main world_no_key (mkForm (Some twenty_characters) true)
                      fresh_runtime))
     = [ st_chrome "set_page_config"; st_chrome "apply_modern_styling";
         st_chrome "render_app_header"; st_chrome "render_sidebar_info";
         st_spinner (u "Lade 'Oeffentliches_Gestalten.pdf'...");
         genai_configure None;
         st_chrome "render_introduction";
         st_subheader (u "Problembeschreibung eingeben");
         st_chrome "form";
         st_error key_missing_message;
         st_chrome "render_footer" ]
  /\ filter is_requester_call
       (trace (fst (main world_no_key (mkForm (Some twenty_characters) true)
                         fresh_runtime)))
     = [].
Proof. repeat split. Qed.

Lemma missing_key_no_network_call_witness :
  exists rt',
    get_ai_suggestions world_no_key twenty_characters fresh_runtime
    = (rt', Return None)
    /\ session rt' = session fresh_runtime
    /\ trace rt'
       = trace fresh_runtime
           ++ [call_get_ai_suggestions twenty_characters; st_error no_key_message]
    /\ filter is_api_call (trace rt') = filter is_api_call (trace fresh_runtime).
Proof.
  exact (missing_key_no_network_call world_no_key twenty_characters
           fresh_runtime eq_refl).
Defined.

Lemma requester_boundary_witness :
  snd (get_ai_suggestions world_ok twenty_characters fresh_runtime)
  = Return (Some sample_answer)
  /\ (snd (get_ai_suggestions world_quota twenty_characters fresh_runtime)
      = Return None
      /\ (exists evs,
             trace (fst (get_ai_suggestions world_quota twenty_characters
                                            fresh_runtime))
             = evs ++ [st_error
                         (u "Fehler bei der Kommunikation mit der Gemini API: 429 quota exceeded")])
      /\ contains (u "429 quota exceeded")
                  (u "Fehler bei der Kommunikation mit der Gemini API: 429 quota exceeded")
         = true).
Proof.
  split.
  - exact (proj1 (proj2 (requester_boundary world_ok twenty_characters
                           fresh_runtime eq_refl))
                 [] (mkResponse (Return sample_answer)) sample_answer
                 eq_refl eq_refl eq_refl).
  - exact (proj2 (proj2 (requester_boundary world_quota twenty_characters
                           fresh_runtime eq_refl))
                 (u "429 quota exceeded")
                 (or_intror (ex_intro _ [] (conj eq_refl (or_introl eq_refl))))).
Defined.

(** * Further facts about the preprocessor *)

(** ** What loops keep *)

Lemma for_each_preserves {S A} (P : S -> Prop) (xs : list A)
      (body : A -> M S unit) :
  (forall x st st' o, P st -> body x st = (st', o) -> P st') ->
  forall st st' o, P st -> for_each xs body st = (st', o) -> P st'.
Proof.
  intro Hb. induction xs as [|x xs IH]; intros st st' o HP E.
  - unfold for_each, ret in E. now inversion E; subst.
  - cbn [for_each] in E. unfold bind in E.
    destruct (body x st) as [st1 [[]|e]] eqn:Ex.
    + apply (IH st1 st' o); [exact (Hb _ _ _ _ HP Ex) | exact E].
    + inversion E; subst. exact (Hb _ _ _ _ HP Ex).
Qed.

(** ** What stripping keeps *)

Lemma in_lstrip (c : char) (s : str) : In c (lstrip s) -> In c s.
Proof.
  induction s as [|a s IH]; [easy|]. cbn [lstrip].
  destruct (isspace a); [intro H; right; auto | easy].
Qed.

Lemma in_rstrip (c : char) (s : str) : In c (rstrip s) -> In c s.
Proof.
  induction s as [|a s IH]; [easy|]. rewrite rstrip_cons.
  destruct (rstrip s) as [|x r].
  - destruct (isspace a); [easy|]. intros [H|H]; [now left | right; auto].
  - intros [H|H]; [now left | right; auto].
Qed.

Lemma in_strip (c : char) (s : str) : In c (strip s) -> In c s.
Proof. intro H. apply in_lstrip, in_rstrip, H. Qed.

Lemma lstrip_spaces (ws s : str) :
  forallb isspace ws = true -> lstrip (ws ++ s) = lstrip s.
Proof.
  induction ws as [|a ws IH]; [easy|]. cbn [forallb app lstrip].
  intro H. apply andb_true_iff in H. destruct H as [Ha Hw].
  rewrite Ha. auto.
Qed.

Lemma rstrip_all_spaces (ws : str) : forallb isspace ws = true -> rstrip ws = [].
Proof.
  induction ws as [|a ws IH]; [easy|]. cbn [forallb]. intro H.
  apply andb_true_iff in H. destruct H as [Ha Hw].
  rewrite rstrip_cons, (IH Hw), Ha. reflexivity.
Qed.

Lemma rstrip_spaces (s ws : str) :
  forallb isspace ws = true -> rstrip (s ++ ws) = rstrip s.
Proof.
  intro H. induction s as [|a s IH].
  - now apply rstrip_all_spaces.
  - cbn [app]. now rewrite !rstrip_cons, IH.
Qed.

Lemma strip_padding (ws1 s ws2 : str) :
  forallb isspace ws1 = true -> forallb isspace ws2 = true ->
  strip (ws1 ++ s ++ ws2) = strip s.
Proof.
  intros H1 H2. unfold strip. rewrite lstrip_spaces by exact H1.
  induction s as [|a s IH].
  - cbn [app]. replace (lstrip ws2) with (@nil char); [reflexivity|].
    clear - H2. induction ws2 as [|b ws IH]; [easy|].
    cbn [forallb lstrip] in *. apply andb_true_iff in H2.
    destruct H2 as [Hb Hw]. rewrite Hb. auto.
  - cbn [app lstrip]. destruct (isspace a); [exact IH|].
    change (a :: s ++ ws2) with ((a :: s) ++ ws2).
    now apply rstrip_spaces.
Qed.

Lemma single_line_split_nl (s : str) : Forall single_line (split_nl s).
Proof.
  induction s as [|c s IH]; cbn [split_nl].
  - constructor; [intros [] | constructor].
  - destruct (N.eqb_spec c 10) as [->|Hc].
    + constructor; [intros [] | exact IH].
    + destruct (split_nl s) as [|l ls]; inversion IH; subst.
      * constructor; [|constructor]. intros [H|[]]. congruence.
      * constructor; [|assumption]. intros [H|H]; [congruence | contradiction].
Qed.

Lemma single_line_strip (s : str) : single_line s -> single_line (strip s).
Proof. unfold single_line. intros H Hin. apply H, in_strip, Hin. Qed.

Section PreprocessorMore.

Variable isdigit : char -> bool.

Lemma scan_line_frame (line : str) (st st' : locals) (o : outcome unit) :
  scan_line isdigit line st = (st', o) ->
  toc_error st' = toc_error st /\ full_text st' = full_text st.
Proof.
  unfold scan_line, bind, toc_text_append, modify, ret.
  destruct (dotted_with_digit isdigit (strip line));
    [|destruct (ends_in_digit isdigit (strip line))];
    destruct (toc_text st); intro E; inversion E; subst; now simpl.
Qed.

Lemma scan_page_frame (doc : Document) (n : nat) (st st' : locals)
      (o : outcome unit) :
  scan_page isdigit doc n st = (st', o) -> toc_error st' = toc_error st.
Proof.
  unfold scan_page, bind, lift. destruct (get_text doc n) as [text|e].
  - intro E.
    refine (@for_each_preserves _ _ (fun s => toc_error s = toc_error st)
              (split_nl text) (scan_line isdigit) _ st st' o eq_refl E).
    intros line s s' o' Hs El. rewrite <- Hs.
    apply (scan_line_frame _ _ El).
  - intro E. now inversion E.
Qed.

Lemma scan_pages_frame (doc : Document) (ns : list nat) (st st' : locals)
      (o : outcome unit) :
  for_each ns (scan_page isdigit doc) st = (st', o) ->
  toc_error st' = toc_error st.
Proof.
  intro E.
  refine (@for_each_preserves _ _ (fun s => toc_error s = toc_error st)
            ns (scan_page isdigit doc) _ st st' o eq_refl E).
  intros n s s' o' Hs En. rewrite <- Hs. exact (scan_page_frame _ _ _ En).
Qed.

(** After the fallback scan, however it ends, no warning stands beside an
    outline. *)
Lemma fallback_scan_shape (doc : Document) (st st' : locals) (o : outcome unit) :
  toc_error st = None ->
  fallback_scan isdigit doc st = (st', o) ->
  toc_error st' = None \/ toc_text st' = None.
Proof.
  intros H0. unfold fallback_scan. unfold bind at 1, modify at 1.
  unfold bind at 1.
  destruct (for_each _ _ _) as [st1 [[]|e]] eqn:Ef;
    apply scan_pages_frame in Ef; cbn [toc_error set_found_toc_lines] in Ef;
    rewrite H0 in Ef.
  - unfold bind, get. destruct (found_toc_lines st1 <? 3)%Z.
    + unfold modify. intro E. inversion E; subst. now right.
    + unfold ret. intro E. inversion E; subst. now left.
  - intro E. inversion E; subst. now left.
Qed.

Lemma render_toc_frame (toc : list toc_entry) (st st' : locals)
      (o : outcome unit) :
  render_toc toc st = (st', o) -> toc_error st' = toc_error st.
Proof.
  intro E.
  refine (@for_each_preserves _ _ (fun s => toc_error s = toc_error st)
            toc _ _ st st' o eq_refl E).
  intros entry s s' o' Hs Ea. rewrite <- Hs.
  unfold toc_text_append in Ea. destruct (toc_text s); now inversion Ea.
Qed.

Lemma extract_full_text_frame (doc : Document) (st st' : locals)
      (o : outcome unit) :
  extract_full_text doc st = (st', o) ->
  toc_error st' = toc_error st /\ toc_text st' = toc_text st.
Proof.
  intro E.
  refine (@for_each_preserves _ _
            (fun s => toc_error s = toc_error st /\ toc_text s = toc_text st)
            _ _ _ st st' o (conj eq_refl eq_refl) E).
  intros n s s' o' Hs En. unfold bind, lift, full_text_append, modify in En.
  destruct (get_text doc n); inversion En; subst; exact Hs.
Qed.

Lemma try_body_shape (fs : filesystem) (path : str) (st : locals)
      (o : outcome unit) :
  try_body isdigit fs path initial_locals = (st, o) ->
  toc_error st = None \/ toc_text st = None.
Proof.
  unfold try_body. unfold bind at 1, lift at 1.
  destruct (fitz_open fs path) as [doc|e]; [|intro E; inversion E; now left].
  unfold bind at 1, lift at 1.
  destruct (get_toc doc) as [toc|e]; [|intro E; inversion E; now left].
  unfold bind at 1.
  destruct toc as [|entry toc].
  - destruct (fallback_scan isdigit doc initial_locals) as [st1 [[]|e]] eqn:Eb;
      apply fallback_scan_shape in Eb; try reflexivity; intro E.
    + now destruct (extract_full_text_frame _ _ E) as [-> ->].
    + now inversion E; subst.
  - destruct (render_toc (entry :: toc) initial_locals) as [st1 [[]|e]] eqn:Eb;
      apply render_toc_frame in Eb; intro E.
    + destruct (extract_full_text_frame _ _ E) as [-> _]. now left.
    + inversion E; subst. now left.
Qed.

(** X1.  The shape of every result: the full text is missing exactly when
    the file was not found or a fatal error is reported; an outline is only
    ever returned together with the full text, without warning and without
    fatal error; a fatal error never comes with an outline. *)
Theorem result_shape (fs : filesystem) (path : str) :
  let r := extract_pdf_data isdigit fs path in
  (res_full_text r = None <->
   os_path_exists fs path = false \/ res_pdf_error r <> None)
  /\ (res_toc_text r <> None ->
      res_toc_error r = None /\ res_full_text r <> None
      /\ res_pdf_error r = None)
  /\ (res_pdf_error r <> None -> res_toc_text r = None).
Proof.
  intro r. subst r. unfold extract_pdf_data.
  destruct (os_path_exists fs path); cbn [negb].
  - destruct (try_body isdigit fs path initial_locals) as [st [[]|e]] eqn:E;
      cbn [res_full_text res_toc_text res_toc_error res_pdf_error fst snd].
    + split; [|split].
      * split; [discriminate | intros [H|H]; [discriminate H | now elim H]].
      * intro H. destruct (try_body_shape _ _ E) as [H1|H1];
          [now repeat split | contradiction].
      * intro H. now elim H.
    + split; [|split].
      * split; [intros _; right; discriminate | reflexivity].
      * intro H. now elim H.
      * reflexivity.
  - cbn [res_full_text res_toc_text res_toc_error res_pdf_error fst snd].
    split; [|split].
    + split; [now left | reflexivity].
    + intro H. now elim H.
    + reflexivity.
Qed.

Lemma matched_lines_first_pages (texts later : list str) :
  max_toc_pages <= length texts ->
  matched_lines isdigit (texts ++ later) = matched_lines isdigit texts.
Proof.
  intro H. unfold matched_lines. rewrite firstn_app.
  replace (max_toc_pages - length texts) with 0 by lia.
  now rewrite firstn_O, app_nil_r.
Qed.

(** X2.  The fallback scan never looks beyond the tenth page: two documents
    without embedded outline that are read without exception and agree on
    their first ten or more pages get the same outline and the same
    warning, whatever follows. *)
Theorem outline_ignores_later_pages
        (fs1 fs2 : filesystem) (path1 path2 : str)
        (texts later1 later2 : list str) :
  os_path_exists fs1 path1 = true ->
  os_path_exists fs2 path2 = true ->
  fitz_open fs1 path1
    = Return (mkDocument (Return []) (map Return (texts ++ later1))) ->
  fitz_open fs2 path2
    = Return (mkDocument (Return []) (map Return (texts ++ later2))) ->
  max_toc_pages <= length texts ->
  res_toc_text (extract_pdf_data isdigit fs1 path1)
  = res_toc_text (extract_pdf_data isdigit fs2 path2)
  /\ res_toc_error (extract_pdf_data isdigit fs1 path1)
     = res_toc_error (extract_pdf_data isdigit fs2 path2).
Proof.
  intros Hx1 Hx2 Ho1 Ho2 Hn. unfold extract_pdf_data.
  rewrite Hx1, Hx2. cbn [negb].
  erewrite try_body_fallback by exact Ho1.
  erewrite try_body_fallback by exact Ho2. cbv zeta.
  rewrite !matched_lines_first_pages by exact Hn.
  now destruct (length (matched_lines isdigit texts) <? 3).
Qed.

Lemma single_line_matched (texts : list str) :
  Forall single_line (matched_lines isdigit texts).
Proof.
  unfold matched_lines. apply Forall_forall. intros l Hl.
  apply filter_In in Hl. destruct Hl as [Hl _].
  apply in_map_iff in Hl. destruct Hl as (raw & <- & Hraw).
  apply single_line_strip.
  apply in_concat in Hraw. destruct Hraw as (ls & Hls & Hin).
  apply in_map_iff in Hls. destruct Hls as (text & <- & _).
  pose proof (single_line_split_nl text) as F.
  rewrite Forall_forall in F. now apply F.
Qed.

(** X3.  A guessed outline reads back line by line: for a document without
    embedded outline that is read without exception and has 3 or more
    matches, splitting the outline text at line feeds gives the heading, an
    empty line, one line ["- " + match] per matched line in document order,
    and a last empty line. *)
Theorem fallback_outline_lines
        (fs : filesystem) (path : str) (texts : list str) :
  os_path_exists fs path = true ->
  fitz_open fs path = Return (mkDocument (Return []) (map Return texts)) ->
  3 <= length (matched_lines isdigit texts) ->
  exists text,
    res_toc_text (extract_pdf_data isdigit fs path) = Some text
    /\ split_nl text
       = [toc_heading; []]
           ++ map (fun l => u "- " ++ l) (matched_lines isdigit texts)
           ++ [[]].
Proof.
  intros Hx Ho Hn. unfold extract_pdf_data. rewrite Hx. cbn [negb].
  erewrite try_body_fallback by exact Ho. cbv zeta.
  destruct (Nat.ltb_spec (length (matched_lines isdigit texts)) 3) as [H|_];
    [lia|].
  eexists. split; [reflexivity|].
  unfold toc_header. rewrite <- !app_assoc.
  rewrite split_nl_line by (apply single_line_forallb; reflexivity).
  change (nl ++ concat (map bullet_line (matched_lines isdigit texts)))
    with ([] ++ nl ++ concat (map bullet_line (matched_lines isdigit texts))).
  rewrite split_nl_line by (intros []).
  replace (map bullet_line (matched_lines isdigit texts))
    with (map (fun l => l ++ nl)
              (map (fun l => u "- " ++ l) (matched_lines isdigit texts))).
  - rewrite split_nl_unlines; [reflexivity|].
    apply Forall_map. generalize (single_line_matched texts).
    apply Forall_impl. intros l Hl.
    apply single_line_app; [apply single_line_forallb; reflexivity | exact Hl].
  - rewrite map_map. apply map_ext. intro l. unfold bullet_line.
    now rewrite <- app_assoc.
Qed.

Lemma in_last (s : str) (d : char) : s <> [] -> In (last s d) s.
Proof.
  induction s as [|a s IH]; [congruence|]. intros _.
  destruct s as [|b s]; [now left|]. right. apply IH. discriminate.
Qed.

Lemma ends_in_digit_any (s : str) :
  ends_in_digit isdigit s = true -> any_isdigit isdigit s = true.
Proof.
  unfold ends_in_digit, any_isdigit. destruct s as [|a s]; [discriminate|].
  intro H. apply andb_true_iff in H. destruct H as [H _].
  apply existsb_exists. exists (last (a :: s) 0%N). split; [|exact H].
  apply in_last. discriminate.
Qed.

Lemma any_isdigit_strip_false (line : str) :
  any_isdigit isdigit line = false ->
  any_isdigit isdigit (strip line) = false.
Proof.
  unfold any_isdigit. intro H.
  destruct (existsb isdigit (strip line)) eqn:E; [|reflexivity].
  apply existsb_exists in E. destruct E as (c & Hc & Hd).
  rewrite <- H. symmetry. apply existsb_exists. exists c.
  split; [now apply in_strip | exact Hd].
Qed.

(** X4.  A line without any digit is never taken as an outline line: the
    scan leaves every local as it was. *)
Theorem line_without_digit_ignored (line : str) (st : locals) :
  any_isdigit isdigit line = false ->
  scan_line isdigit line st = (st, Return tt).
Proof.
  intro H. apply any_isdigit_strip_false in H. unfold scan_line.
  unfold dotted_with_digit. rewrite H, andb_false_r.
  destruct (ends_in_digit isdigit (strip line)) eqn:E; [|reflexivity].
  apply ends_in_digit_any in E. congruence.
Qed.

(** X5.  A line whose stripped form has three characters or fewer is never
    taken, given that the period does not count as a digit. *)
Theorem short_line_ignored (line : str) (st : locals) :
  isdigit 46%N = false ->
  len (strip line) <= 3 ->
  scan_line isdigit line st = (st, Return tt).
Proof.
  intros Hdot Hlen. unfold scan_line.
  assert (H1 : dotted_with_digit isdigit (strip line) = false).
  { unfold dotted_with_digit, any_isdigit, len in *.
    destruct (strip line) as [|a [|b [|c [|d s]]]];
      [ | | | |simpl in Hlen; lia];
      change (u "...") with [46; 46; 46]%N;
      cbn [contains startswith existsb];
      rewrite ?andb_false_r, ?orb_false_r; try reflexivity.
    destruct (N.eqb_spec 46 a) as [<-|]; [|reflexivity].
    destruct (N.eqb_spec 46 b) as [<-|]; [|reflexivity].
    destruct (N.eqb_spec 46 c) as [<-|]; [|reflexivity].
    now rewrite Hdot. }
  assert (H2 : ends_in_digit isdigit (strip line) = false).
  { unfold ends_in_digit. destruct (strip line) as [|a s]; [reflexivity|].
    replace (3 <? len (a :: s)) with false; [apply andb_false_r|].
    symmetry. apply Nat.ltb_ge. exact Hlen. }
  now rewrite H1, H2.
Qed.

(** X6.  White space around a line changes nothing: a line padded with
    white space on either side is scanned exactly as the line itself. *)
Theorem padding_is_ignored (ws1 line ws2 : str) (st : locals) :
  forallb isspace ws1 = true -> forallb isspace ws2 = true ->
  scan_line isdigit (ws1 ++ line ++ ws2) st = scan_line isdigit line st.
Proof.
  intros H1 H2. unfold scan_line. now rewrite strip_padding.
Qed.

Lemma fallback_scan_run_prefix (texts : list str) (sufo : list (outcome str))
      (get_toc0 : outcome (list toc_entry)) (t : str) (st : locals) :
  toc_text st = Some t ->
  max_toc_pages <= length texts ->
  fallback_scan isdigit (mkDocument get_toc0 (map Return texts ++ sufo)) st
  = (let ms := matched_lines isdigit texts in
     if length ms <? 3
     then mkLocals None (full_text st) (Some toc_warning)
                   (Z.of_nat (length ms))
     else mkLocals (Some (t ++ concat (map bullet_line ms))) (full_text st)
                   (toc_error st) (Z.of_nat (length ms)),
     Return tt).
Proof.
  intros E Hn. unfold fallback_scan, page_count; simpl page_texts.
  assert (Hm : Nat.min max_toc_pages
                       (length (map Return texts ++ sufo : list (outcome str)))
               = length (firstn max_toc_pages texts)).
  { rewrite length_firstn, length_app, length_map. lia. }
  assert (Ht : map Return texts ++ sufo
               = map Return (firstn max_toc_pages texts)
                 ++ (map Return (skipn max_toc_pages texts) ++ sufo)
               :> list (outcome str)).
  { now rewrite app_assoc, <- map_app, firstn_skipn. }
  rewrite Hm, Ht.
  unfold bind at 1. unfold modify at 1. unfold bind at 1.
  rewrite scan_pages_run with (t := t) by exact E.
  unfold bind, get, matched_lines, after_lines.
  cbn [found_toc_lines set_found_toc_lines].
  set (ms := filter _ _).
  destruct (Z.ltb_spec (0 + Z.of_nat (length ms)) 3) as [Hlt|Hge];
    destruct (Nat.ltb_spec (length ms) 3) as [Hlt'|Hge']; try lia.
  - unfold modify; simpl. reflexivity.
  - unfold ret. reflexivity.
Qed.

Lemma full_text_pages_run (texts : list str) (sufo : list (outcome str))
      (get_toc0 : outcome (list toc_entry)) (st : locals) :
  for_each (seq 0 (length texts))
    (fun page_num =>
       page_text <- lift (get_text (mkDocument get_toc0
                                      (map Return texts ++ sufo)) page_num) ;;
       full_text_append (page_block page_num page_text)) st
  = (set_full_text (full_text st ++ marked_pages texts) st, Return tt).
Proof.
  unfold get_text; simpl page_texts.
  pose proof (@for_each_seq_nth locals (outcome str)
    (fun i o => page_text <- lift o ;; full_text_append (page_block i page_text))
    (Raise (u "page not in document")) (map Return texts) [] sufo st) as H.
  simpl in H. rewrite length_map in H. rewrite H. clear H.
  rewrite (for_each_combine_return
             (fun i page_text => full_text_append (page_block i page_text))).
  rewrite (full_text_appends_run
             (fun p : nat * str => page_block (fst p) (snd p))).
  do 3 f_equal. unfold marked_pages.
  rewrite <- seq_shift. generalize 0 as a.
  induction texts as [|x texts IH]; intro a;
    cbn [map combine seq concat length fst snd]; [reflexivity|].
  rewrite IH. unfold page_block. do 4 f_equal.
  now rewrite Nat2Z.inj_succ, Z.add_1_r.
Qed.

(** The full-text pass stops at the first page that cannot be read. *)
Lemma full_text_first_failure (texts : list str) (e : exn)
      (rest : list (outcome str)) (get_toc0 : outcome (list toc_entry))
      (st : locals) :
  extract_full_text (mkDocument get_toc0 (map Return texts ++ Raise e :: rest)) st
  = (set_full_text (full_text st ++ marked_pages texts) st, Raise e).
Proof.
  unfold extract_full_text, range, page_count; simpl page_texts.
  rewrite length_app, length_map. cbn [length].
  rewrite seq_app, for_each_app. unfold bind at 1.
  rewrite full_text_pages_run. cbn [seq for_each Nat.add].
  unfold bind, lift, get_text; simpl page_texts.
  rewrite app_nth2 by (rewrite length_map; lia).
  rewrite length_map, Nat.sub_diag. reflexivity.
Qed.

(** X7.  A page after the scanned ones that cannot be read: for a document
    without embedded outline whose first ten or more pages are read and whose
    next page raises, the result has no full text and no outline, its fatal
    error is built from that page's exception, and the warning is still set
    when fewer than 3 lines had matched; an outline guessed from 3 or more
    matches is dropped. *)
Theorem late_page_failure
        (fs : filesystem) (path : str) (texts : list str) (e : exn)
        (rest : list (outcome str)) :
  os_path_exists fs path = true ->
  fitz_open fs path
    = Return (mkDocument (Return []) (map Return texts ++ Raise e :: rest)) ->
  max_toc_pages <= length texts ->
  extract_pdf_data isdigit fs path
  = (None, None,
     if length (matched_lines isdigit texts) <? 3 then Some toc_warning
     else None,
     Some (pdf_error_message e)).
Proof.
  intros Hx Ho Hn. unfold extract_pdf_data, try_body. rewrite Hx. cbn [negb].
  unfold bind at 1, lift at 1. rewrite Ho.
  unfold bind at 1, lift at 1. cbn [get_toc].
  unfold bind at 1.
  rewrite fallback_scan_run_prefix with (t := toc_header);
    [|reflexivity|exact Hn].
  cbv zeta. rewrite full_text_first_failure.
  now destruct (length (matched_lines isdigit texts) <? 3).
Qed.

(** X8.  A document without pages is no error: its full text is empty and
    no fatal error is reported; without an embedded outline it gets no
    outline and the warning, with one it gets the rendered outline. *)
Theorem document_without_pages
        (fs : filesystem) (path : str) (toc : list toc_entry) :
  os_path_exists fs path = true ->
  fitz_open fs path = Return (mkDocument (Return toc) []) ->
  extract_pdf_data isdigit fs path
  = (Some [],
     match toc with
     | [] => None
     | _ :: _ => Some (toc_header ++ concat (map toc_line toc))
     end,
     match toc with
     | [] => Some toc_warning
     | _ :: _ => None
     end,
     None).
Proof.
  intros Hx Ho. unfold extract_pdf_data. rewrite Hx. cbn [negb].
  destruct toc as [|entry toc].
  - erewrite try_body_fallback with (texts := []) by exact Ho. reflexivity.
  - erewrite try_body_embedded with (texts := []) by exact Ho. reflexivity.
Qed.

Lemma first_raise_split (ps : list (outcome str)) (e : exn) :
  first_raise ps = Some e ->
  exists texts rest, ps = map Return texts ++ Raise e :: rest.
Proof.
  induction ps as [|[t|e'] ps IH]; cbn [first_raise]; intro H.
  - discriminate H.
  - destruct (IH H) as (texts & rest & ->). now exists (t :: texts), rest.
  - inversion H; subst. now exists [], ps.
Qed.

Lemma first_raise_some (ps : list (outcome str)) :
  forallb is_return ps = false -> exists e, first_raise ps = Some e.
Proof.
  induction ps as [|[t|e] ps IH]; cbn [forallb first_raise is_return andb].
  - discriminate.
  - exact IH.
  - intros _. now exists e.
Qed.

(** Whenever something cannot be opened or read there is a first failure. *)
Lemma first_exception_some (fs : filesystem) (path : str) :
  opens_and_reads fs path = false -> exists e, first_exception fs path = Some e.
Proof.
  unfold opens_and_reads, readable, first_exception.
  destruct (fitz_open fs path) as [doc|e]; [|intros _; now exists e].
  destruct (get_toc doc) as [toc|e]; [|intros _; now exists e].
  apply first_raise_some.
Qed.

(** The fallback scan stops at a page among the first ten that cannot be
    read. *)
Lemma fallback_scan_first_failure (texts : list str) (e : exn)
      (rest : list (outcome str)) (get_toc0 : outcome (list toc_entry))
      (t : str) (st : locals) :
  toc_text st = Some t ->
  length texts < max_toc_pages ->
  exists st',
    fallback_scan isdigit
      (mkDocument get_toc0 (map Return texts ++ Raise e :: rest)) st
    = (st', Raise e).
Proof.
  intros E Hn. unfold fallback_scan, page_count; simpl page_texts.
  rewrite length_app, length_map. cbn [length].
  set (m := Nat.min max_toc_pages (length texts + S (length rest))).
  assert (Hm : m = length texts + S (m - S (length texts))) by (subst m; lia).
  rewrite Hm. unfold range. rewrite seq_app. cbn [seq Nat.add].
  unfold bind at 1, modify at 1. unfold bind at 1. rewrite for_each_app.
  unfold bind at 1.
  change (seq 0 (length texts)) with (range (length texts)).
  rewrite scan_pages_run with (t := t) by exact E.
  cbn [for_each]. unfold bind at 1. unfold scan_page at 1.
  unfold bind at 1, lift at 1, get_text; simpl page_texts.
  rewrite app_nth2 by (rewrite length_map; lia).
  rewrite length_map, Nat.sub_diag. cbn [nth]. eexists. reflexivity.
Qed.

(** The body of the [try] ends in the first failure. *)
Lemma try_body_first_exception (fs : filesystem) (path : str) (e : exn) :
  first_exception fs path = Some e ->
  exists st, try_body isdigit fs path initial_locals = (st, Raise e).
Proof.
  unfold first_exception, try_body. unfold bind at 1, lift at 1.
  destruct (fitz_open fs path) as [[toc0 ps]|e0];
    [|intro H; inversion H; subst; eexists; reflexivity].
  unfold bind at 1, lift at 1. cbn [get_toc page_texts].
  destruct toc0 as [toc|e0];
    [|intro H; inversion H; subst; eexists; reflexivity].
  intro H. destruct (first_raise_split _ H) as (texts & rest & ->).
  unfold bind at 1. destruct toc as [|entry toc].
  - destruct (Nat.lt_ge_cases (length texts) max_toc_pages) as [Hlt|Hge].
    + destruct (@fallback_scan_first_failure texts e rest (Return [])
                  toc_header initial_locals eq_refl Hlt) as (st' & ->).
      eexists. reflexivity.
    + rewrite fallback_scan_run_prefix with (t := toc_header);
        [|reflexivity|exact Hge].
      cbv zeta. rewrite full_text_first_failure. eexists. reflexivity.
  - rewrite render_toc_run with (t := toc_header) by reflexivity.
    rewrite full_text_first_failure. eexists. reflexivity.
Qed.

(** C6.  Whenever opening the document, reading its outline or reading one
    of its pages raises, the body of the [try] ends in an exception, the
    first one met in that order, and the result carries neither full text nor
    outline; its fatal error is
    ["Fehler bei der PDF-Verarbeitung: " + str(e)] for that exception [e],
    so the exception's own text is returned in it. *)
Theorem exception_gives_no_partial_text (fs : filesystem) (path : str) :
  os_path_exists fs path = true ->
  opens_and_reads fs path = false ->
  exists e st,
    first_exception fs path = Some e
    /\ try_body isdigit fs path initial_locals = (st, Raise e)
    /\ extract_pdf_data isdigit fs path
       = (None, None, toc_error st,
          Some (u "Fehler bei der PDF-Verarbeitung: " ++ e))
    /\ contains e (u "Fehler bei der PDF-Verarbeitung: " ++ e) = true.
Proof.
  intros Hx Hr. destruct (first_exception_some fs path Hr) as (e & He).
  destruct (try_body_first_exception fs path He) as (st & E).
  exists e, st. split; [exact He|]. split; [exact E|].
  split; [|apply contains_suffix].
  unfold extract_pdf_data. now rewrite Hx, E.
Qed.

End PreprocessorMore.

(** * Further facts about the page and the requester *)

Lemma get_ai_suggestions_outcome (w : world) (d : str) (rt : runtime) :
  get_ai_suggestions w d rt
  = (mkRuntime (session rt)
               (trace rt ++ call_get_ai_suggestions d
                  :: fst (requester_outcome w d)),
     Return (snd (requester_outcome w d))).
Proof.
  rewrite get_ai_suggestions_run. unfold requester_outcome. cbv zeta.
  destruct (truthy (API_KEY w)); [|reflexivity].
  destruct (read_bytes w PDF_PATH) as [pdf|e]; [|reflexivity].
  destruct (generate_content w MODEL_NAME _) as [resp|e]; [|reflexivity].
  destruct (response_text resp); reflexivity.
Qed.

Lemma on_submit_run (w : world) (description : option str) (rt : runtime) :
  on_submit w description rt
  = (mkRuntime (session rt) (trace rt ++ submit_events w description),
     Return tt).
Proof.
  unfold on_submit, submit_events.
  destruct (too_short description); [reflexivity|].
  destruct (truthy (API_KEY w)); cbn [negb]; [|reflexivity].
  unfold bind at 1. rewrite emit_run.
  unfold bind at 1. rewrite get_ai_suggestions_outcome.
  unfold show_suggestions, no_suggestions_message.
  destruct (snd (requester_outcome w _)) as [[|c t]|];
    unfold bind, emit, modify; cbn [session trace];
    rewrite <- !app_assoc; reflexivity.
Qed.

Lemma initialize_pdf_data_run (w : world) (path : str) (rt : runtime) :
  initialize_pdf_data w path rt
  = (mkRuntime (snd (fst (init_outcome w path (session rt))))
               (trace rt ++ fst (fst (init_outcome w path (session rt)))),
     Return (snd (init_outcome w path (session rt)))).
Proof.
  unfold initialize_pdf_data, init_outcome, bind at 1, get.
  destruct (pdf_initialized (session rt)); cbn [negb fst snd].
  - unfold ret. rewrite app_nil_r. now destruct rt.
  - unfold try_except, bind, emit, modify, lift, ret. cbn [session trace].
    destruct (read_bytes w path); cbn [fst snd session trace];
      rewrite <- !app_assoc; reflexivity.
Qed.

Lemma main_run (w : world) (form : form_input) (rt : runtime) :
  main w form rt
  = (mkRuntime (snd (fst (init_outcome w PDF_PATH (session rt))))
               (trace rt ++ main_events w form (session rt)),
     Return tt).
Proof.
  unfold main, main_events, page_head, load_failure_message.
  do 4 (unfold bind at 1; rewrite emit_run).
  unfold bind at 1. rewrite initialize_pdf_data_run. cbn [session trace].
  destruct (init_outcome w PDF_PATH (session rt)) as [[evs ss] ok].
  cbn [fst snd]. destruct ok; cbn [negb].
  - do 3 (unfold bind at 1; rewrite emit_run). cbn [session trace].
    unfold bind at 1. destruct (submit_button form).
    + rewrite on_submit_run. rewrite emit_run. cbn [session trace].
      rewrite <- !app_assoc. reflexivity.
    + unfold ret. rewrite emit_run. cbn [session trace].
      rewrite <- !app_assoc. reflexivity.
  - unfold bind at 1. rewrite !emit_run. cbn [session trace].
    rewrite <- !app_assoc. reflexivity.
Qed.

(** X9.  [initialize_pdf_data] never ends in an exception.  It returns
    [True] exactly when the PDF is already in the session or can be read now,
    and then the session is marked as initialised; an initialised session is
    left as it is, a fresh one stores the bytes just read; when it returns
    [False] the session is unchanged. *)
Theorem initialize_pdf_data_outcome (w : world) (path : str) (rt : runtime) :
  exists rt',
    initialize_pdf_data w path rt
    = (rt', Return (pdf_initialized (session rt)
                    || is_return (read_bytes w path)))
    /\ pdf_initialized (session rt')
       = pdf_initialized (session rt) || is_return (read_bytes w path)
    /\ (pdf_initialized (session rt) = true -> rt' = rt)
    /\ (forall pdf,
           pdf_initialized (session rt) = false ->
           read_bytes w path = Return pdf ->
           pdf_data (session rt') = Some pdf)
    /\ (forall e,
           pdf_initialized (session rt) = false ->
           read_bytes w path = Raise e ->
           session rt' = session rt).
Proof.
  rewrite initialize_pdf_data_run. unfold init_outcome.
  destruct (pdf_initialized (session rt)) eqn:Ei; cbn [fst snd orb].
  - eexists. split; [reflexivity|]. cbn [session].
    repeat split; try discriminate; auto.
    intros _. rewrite app_nil_r. now destruct rt.
  - destruct (read_bytes w path) as [pdf|e]; cbn [fst snd is_return];
      (eexists; split; [reflexivity|]); cbn [session pdf_initialized pdf_data];
      repeat split; try discriminate; auto.
    intros pdf' _ H. now inversion H.
Qed.

(** X10.  Loading happens once per session: after a run of
    [initialize_pdf_data] that returned [True], any further run, in whatever
    world and for whatever path, returns [True] at once, shows nothing and
    changes nothing. *)
Theorem initialize_pdf_data_once
        (w w' : world) (path path' : str) (rt rt1 : runtime) :
  initialize_pdf_data w path rt = (rt1, Return true) ->
  initialize_pdf_data w' path' rt1 = (rt1, Return true).
Proof.
  rewrite initialize_pdf_data_run. intro E.
  assert (Hi : pdf_initialized (session rt1) = true).
  { unfold init_outcome in E.
    destruct (pdf_initialized (session rt)) eqn:Ei; cbn [fst snd] in E.
    - inversion E; subst. exact Ei.
    - destruct (read_bytes w path); cbn [fst snd] in E; inversion E; subst;
        reflexivity. }
  rewrite initialize_pdf_data_run. unfold init_outcome. rewrite Hi.
  cbn [fst snd]. rewrite app_nil_r. now destruct rt1.
Qed.

(** X11.  [main] never ends in an exception and never removes what was
    shown: whatever the world and the form, a run adds the page head first
    and the footer last. *)
Theorem main_ends_with_footer (w : world) (form : form_input) (rt : runtime) :
  exists rt' evs,
    main w form rt = (rt', Return tt)
    /\ trace rt'
       = trace rt ++ page_head ++ evs ++ [st_chrome "render_footer"].
Proof.
  rewrite main_run. unfold main_events.
  destruct (init_outcome w PDF_PATH (session rt)) as [[evs ss] ok].
  do 2 eexists. split; [reflexivity|]. cbn [trace].
  rewrite (app_assoc evs). reflexivity.
Qed.

(** X12.  When the PDF is not in the session and cannot be read, the page
    stops before the form: whatever was typed or pressed, the run shows the
    load error with the exception's text, then the blocking error, then the
    footer, and leaves the session as it was. *)
Theorem unreadable_pdf_blocks_page
        (w : world) (form : form_input) (rt : runtime) (e : exn) :
  pdf_initialized (session rt) = false ->
  read_bytes w PDF_PATH = Raise e ->
  main w form rt
  = (mkRuntime (session rt)
       (trace rt ++ page_head
          ++ [st_spinner (u "Lade '" ++ basename PDF_PATH ++ u "'...");
              genai_configure (API_KEY w);
              st_error (u "Fehler beim Laden der PDF: " ++ e);
              st_error load_failure_message;
              st_chrome "render_footer"]),
     Return tt).
Proof.
  intros Hi Hr. rewrite main_run. unfold main_events, init_outcome.
  rewrite Hi, Hr. reflexivity.
Qed.

Lemma filter_api_call_requester (w : world) (d : str) :
  length (filter is_api_call (fst (requester_outcome w d)))
  = if truthy (API_KEY w) && is_return (read_bytes w PDF_PATH) then 1 else 0.
Proof.
  unfold requester_outcome.
  destruct (truthy (API_KEY w)); [|reflexivity].
  destruct (read_bytes w PDF_PATH) as [pdf|e]; [|reflexivity].
  cbv zeta. destruct (generate_content w MODEL_NAME _) as [resp|e];
    [|reflexivity].
  destruct (response_text resp); reflexivity.
Qed.

(** X13.  One run of the page sends at most one request to the service, and
    sends it exactly when the form is submitted with a description that is
    long enough, a key is configured and the PDF can be read; a failing
    service is not asked again. *)
Theorem one_request_per_run (w : world) (form : form_input) (rt : runtime) :
  length (filter is_api_call (trace (fst (main w form rt))))
  = length (filter is_api_call (trace rt))
    + (if submit_button form
          && negb (too_short (problem_description form))
          && truthy (API_KEY w)
          && is_return (read_bytes w PDF_PATH)
       then 1 else 0).
Proof.
  rewrite main_run. cbn [fst trace].
  rewrite filter_app, length_app. f_equal.
  unfold main_events, init_outcome.
  assert (Hs : length (filter is_api_call
                         (submit_events w (problem_description form)))
               = if negb (too_short (problem_description form))
                    && truthy (API_KEY w)
                    && is_return (read_bytes w PDF_PATH)
                 then 1 else 0).
  { unfold submit_events.
    destruct (too_short (problem_description form)); [reflexivity|].
    destruct (truthy (API_KEY w)) eqn:Ek; cbn [negb andb]; [|reflexivity].
    cbn [app filter is_api_call]. rewrite filter_app, length_app.
    rewrite filter_api_call_requester, Ek. cbn [andb].
    destruct (snd (requester_outcome w _)) as [[|c t]|];
      cbn [show_suggestions filter is_api_call length]; apply Nat.add_0_r. }
  destruct (pdf_initialized (session rt)).
  - cbn [page_head app filter is_api_call].
    rewrite filter_app, length_app. cbn [filter is_api_call length].
    destruct (submit_button form); cbn [andb];
      [rewrite Hs; apply Nat.add_0_r | reflexivity].
  - destruct (read_bytes w PDF_PATH) as [pdf|e] eqn:Er.
    + cbn [page_head app filter is_api_call].
      rewrite filter_app, length_app. cbn [filter is_api_call length].
      destruct (submit_button form); cbn [andb].
      * rewrite Hs. apply Nat.add_0_r.
      * reflexivity.
    + cbn [page_head app filter is_api_call length is_return].
      now rewrite !andb_false_r.
Qed.

Lemma submit_events_valid (w : world) (d : str) :
  20 <= len d -> truthy (API_KEY w) = true ->
  submit_events w (Some d)
  = [st_spinner (u "KI analysiert das Problem und sucht nach Übungen...");
     call_get_ai_suggestions d]
      ++ fst (requester_outcome w d)
      ++ [st_markdown (u "---"); st_subheader (u "Ergebnis der Analyse");
          show_suggestions (snd (requester_outcome w d))].
Proof.
  intros Hl Hk. unfold submit_events. now rewrite (long_enough d Hl), Hk.
Qed.

Lemma init_outcome_readable (w : world) (ss : session_state)
      (pdf : list Byte.byte) :
  read_bytes w PDF_PATH = Return pdf ->
  snd (init_outcome w PDF_PATH ss) = true.
Proof.
  intro Hr. unfold init_outcome. rewrite Hr.
  now destruct (pdf_initialized ss).
Qed.

(** X14.  What the page shows of an answer: after a submission that is long
    enough, with a key and a readable PDF, when the service answers with a
    text, the run ends with the request, the separator, the heading, the
    answer unchanged inside the result card, and the footer; an empty answer
    is shown as the "no suggestions" error instead. *)
Theorem answer_rendering
        (w : world) (d : str) (rt : runtime)
        (pdf : list Byte.byte) (resp : response) (text : str) :
  20 <= len d ->
  truthy (API_KEY w) = true ->
  read_bytes w PDF_PATH = Return pdf ->
  generate_content w MODEL_NAME (request_for pdf d) = Return resp ->
  response_text resp = Return text ->
  exists evs,
    trace (fst (main w (mkForm (Some d) true) rt))
    = trace rt ++ evs
        ++ [api_call MODEL_NAME (request_for pdf d);
            st_markdown (u "---");
            st_subheader (u "Ergebnis der Analyse");
            match text with
            | [] =>
                st_error
                  (u "Es konnten keine Vorschläge generiert werden. Überprüfen Sie die Fehlermeldungen.")
            | _ :: _ =>
                st_markdown
                  (u "<div class=" ++ [quote] ++ u "result-card" ++ [quote]
                     ++ u ">" ++ text ++ u "</div>")
            end;
            st_chrome "render_footer"].
Proof.
  intros Hl Hk Hr Hg Ht. rewrite main_run. cbn [fst trace].
  unfold main_events.
  pose proof (@init_outcome_readable w (session rt) pdf Hr) as Hok.
  destruct (init_outcome w PDF_PATH (session rt)) as [[evs ss] ok].
  cbn [snd] in Hok. subst ok. cbn [submit_button problem_description].
  rewrite (@submit_events_valid w d Hl Hk).
  unfold requester_outcome. rewrite Hk, Hr. cbv zeta. rewrite Hg, Ht.
  cbn [fst snd show_suggestions].
  exists (page_head ++ evs
            ++ [st_chrome "render_introduction";
                st_subheader (u "Problembeschreibung eingeben");
                st_chrome "form";
                st_spinner (u "KI analysiert das Problem und sucht nach Übungen...");
                call_get_ai_suggestions d;
                genai_configure (API_KEY w)]).
  rewrite <- !app_assoc. cbn [app]. now destruct text.
Qed.

(** X15.  What the page shows of a failing service: after a submission that
    is long enough, with a key and a readable PDF, when the request raises,
    the run ends with the request, the diagnostic with the exception's text,
    the separator, the heading, the "no suggestions" error, and the
    footer. *)
Theorem service_failure_rendering
        (w : world) (d : str) (rt : runtime)
        (pdf : list Byte.byte) (e : exn) :
  20 <= len d ->
  truthy (API_KEY w) = true ->
  read_bytes w PDF_PATH = Return pdf ->
  generate_content w MODEL_NAME (request_for pdf d) = Raise e ->
  exists evs,
    trace (fst (main w (mkForm (Some d) true) rt))
    = trace rt ++ evs
        ++ [api_call MODEL_NAME (request_for pdf d);
            st_error (u "Fehler bei der Kommunikation mit der Gemini API: "
                        ++ e);
            st_markdown (u "---");
            st_subheader (u "Ergebnis der Analyse");
            st_error
              (u "Es konnten keine Vorschläge generiert werden. Überprüfen Sie die Fehlermeldungen.");
            st_chrome "render_footer"].
Proof.
  intros Hl Hk Hr Hg. rewrite main_run. cbn [fst trace].
  unfold main_events.
  pose proof (@init_outcome_readable w (session rt) pdf Hr) as Hok.
  destruct (init_outcome w PDF_PATH (session rt)) as [[evs ss] ok].
  cbn [snd] in Hok. subst ok. cbn [submit_button problem_description].
  rewrite (@submit_events_valid w d Hl Hk).
  unfold requester_outcome. rewrite Hk, Hr. cbv zeta. rewrite Hg.
  cbn [fst snd show_suggestions].
  exists (page_head ++ evs
            ++ [st_chrome "render_introduction";
                st_subheader (u "Problembeschreibung eingeben");
                st_chrome "form";
                st_spinner (u "KI analysiert das Problem und sucht nach Übungen...");
                call_get_ai_suggestions d;
                genai_configure (API_KEY w)]).
  rewrite <- !app_assoc. reflexivity.
Qed.

(** X16.  The prompt carries the description verbatim and nothing else of
    it: the description stands in the prompt between two quotation marks,
    the prompt is as much longer than the fixed template as the description
    is long, and two descriptions with the same prompt are the same. *)
Theorem prompt_embeds_description (d1 d2 : str) :
  contains ([quote] ++ d1 ++ [quote]) (build_prompt d1) = true
  /\ len (build_prompt d1) = len d1 + len (build_prompt [])
  /\ (build_prompt d1 = build_prompt d2 -> d1 = d2).
Proof.
  unfold build_prompt. split; [|split].
  - apply contains_app_r.
    replace ([quote] ++ d1 ++ [quote] ++ nl ++ unlines prompt_after)
      with (([quote] ++ d1 ++ [quote]) ++ nl ++ unlines prompt_after)
      by (now rewrite <- !app_assoc).
    apply contains_of_startswith, startswith_app.
  - unfold len. rewrite !length_app. cbn [length]. lia.
  - intro H. apply app_inv_head in H. cbn [app] in H.
    inversion H as [H1]. now apply app_inv_tail in H1.
Qed.

(** X17.  The requester is a closed boundary in every world, with or without
    a key: what it shows and what it returns do not depend on the runtime it
    starts from; it never ends in an exception, only appends to what was
    shown, and leaves the session as it is. *)
Theorem requester_keeps_session (w : world) (d : str) :
  exists evs v,
    forall rt,
      get_ai_suggestions w d rt
      = (mkRuntime (session rt)
                   (trace rt ++ call_get_ai_suggestions d :: evs),
         Return v).
Proof.
  exists (fst (requester_outcome w d)), (snd (requester_outcome w d)).
  intro rt. apply get_ai_suggestions_outcome.
Qed.

(** X18.  What is sent: with a key and a readable PDF the requester makes
    exactly one request, whatever the service does with it, to the
    configured model, carrying the bytes just read as [application/pdf] and
    the prompt built from the description; when the PDF cannot be read no
    request is made. *)
Theorem request_content (w : world) (d : str) (rt : runtime) :
  (forall pdf,
      truthy (API_KEY w) = true ->
      read_bytes w PDF_PATH = Return pdf ->
      filter is_api_call (trace (fst (get_ai_suggestions w d rt)))
      = filter is_api_call (trace rt)
          ++ [api_call MODEL_NAME
                (mkRequest (u "application/pdf") pdf (build_prompt d))])
  /\ (forall e,
         read_bytes w PDF_PATH = Raise e ->
         filter is_api_call (trace (fst (get_ai_suggestions w d rt)))
         = filter is_api_call (trace rt)).
Proof.
  rewrite get_ai_suggestions_outcome. cbn [fst trace].
  unfold requester_outcome. split.
  - intros pdf Hk Hr. rewrite Hk, Hr. cbv zeta. rewrite filter_app.
    destruct (generate_content w MODEL_NAME _) as [resp|e];
      [destruct (response_text resp)|]; reflexivity.
  - intros e Hr. rewrite Hr, filter_app.
    destruct (truthy (API_KEY w)); cbn; now rewrite app_nil_r.
Qed.

Lemma main_events_without_key (w : world) (form : form_input)
      (ss : session_state) :
  truthy (API_KEY w) = false ->
  filter is_requester_call (main_events w form ss) = []
  /\ filter is_api_call (main_events w form ss) = [].
Proof.
  intro Hk. unfold main_events, init_outcome, submit_events.
  rewrite Hk. cbn [negb].
  destruct (pdf_initialized ss); [|destruct (read_bytes w PDF_PATH)];
    destruct (submit_button form);
    try destruct (too_short (problem_description form));
    split; reflexivity.
Qed.

(** X19.  Where the key comes from decides what a submission can do.  A
    secret, when the store has one, is the key whatever the environment
    holds.  So with an empty secret, or with no secret and no usable
    environment value, no run of the page reaches the requester or the
    service, and a long enough submission on a loaded page ends with the
    missing-key error before the footer. *)
Theorem unusable_key_blocks_submissions
        (src : key_sources) (files : str -> outcome (list Byte.byte))
        (service : str -> request -> outcome response)
        (form : form_input) (rt : runtime) :
  st_secrets src = Return []
  \/ (exists e, st_secrets src = Raise e /\ truthy (os_getenv src) = false) ->
  let w := world_from src files service in
  filter is_requester_call (trace (fst (main w form rt)))
  = filter is_requester_call (trace rt)
  /\ filter is_api_call (trace (fst (main w form rt)))
     = filter is_api_call (trace rt)
  /\ (submit_button form = true ->
      too_short (problem_description form) = false ->
      page_loads w rt = true ->
      exists evs,
        trace (fst (main w form rt))
        = evs ++ [st_error key_missing_message; st_chrome "render_footer"]).
Proof.
  intros Hsrc w.
  assert (Hk : truthy (API_KEY w) = false).
  { subst w. unfold world_from, get_api_key. cbn [API_KEY].
    destruct Hsrc as [->|(e & -> & H)]; [reflexivity | exact H]. }
  rewrite main_run. cbn [fst trace]. rewrite !filter_app.
  destruct (main_events_without_key w form (session rt) Hk) as [-> ->].
  rewrite !app_nil_r. split; [reflexivity|]. split; [reflexivity|].
  intros Hb Hs Hl. unfold main_events, init_outcome, submit_events, page_loads in *.
  rewrite Hb, Hs, Hk. cbn [negb].
  destruct (pdf_initialized (session rt)); cbn [orb] in Hl.
  - exists (trace rt ++ page_head
              ++ [st_chrome "render_introduction";
                  st_subheader (u "Problembeschreibung eingeben");
                  st_chrome "form"]).
    rewrite <- !app_assoc. reflexivity.
  - destruct (files PDF_PATH) as [pdf|e] eqn:Ef;
      subst w; cbn [world_from read_bytes] in *; rewrite Ef in *;
      [|discriminate Hl].
    eexists (trace rt ++ page_head ++ [_; _; _; _; _]).
    rewrite <- !app_assoc. reflexivity.
Qed.

(** * Instances of the further facts *)

Lemma result_shape_witness :
  res_toc_error
    (extract_pdf_data ascii_isdigit
       (fs_with (Return (mkDocument (Return sample_outline)
                           (map Return [sample_contents_page]))))
       PDF_PATH) = None
  /\ res_full_text
       (extract_pdf_data ascii_isdigit
          (fs_with (Return (mkDocument (Return sample_outline)
                              (map Return [sample_contents_page]))))
          PDF_PATH) <> None
  /\ res_pdf_error
       (extract_pdf_data ascii_isdigit
          (fs_with (Return (mkDocument (Return sample_outline)
                              (map Return [sample_contents_page]))))
          PDF_PATH) = None.
Proof.
  apply (proj1 (proj2 (@result_shape ascii_isdigit
                         (fs_with (Return (mkDocument (Return sample_outline)
                                             (map Return [sample_contents_page]))))
                         PDF_PATH))).
  vm_compute. discriminate.
Defined.

Lemma outline_ignores_later_pages_witness :
  res_toc_text
    (extract_pdf_data ascii_isdigit
       (fs_with (Return (mkDocument (Return [])
                           (map Return (ten_pages ++ [u "Kapitel 9 ... 99"])))))
       PDF_PATH)
  = res_toc_text
      (extract_pdf_data ascii_isdigit
         (fs_with (Return (mkDocument (Return []) (map Return (ten_pages ++ [])))))
         PDF_PATH)
  /\ res_toc_error
       (extract_pdf_data ascii_isdigit
          (fs_with (Return (mkDocument (Return [])
                              (map Return (ten_pages ++ [u "Kapitel 9 ... 99"])))))
          PDF_PATH)
     = res_toc_error
         (extract_pdf_data ascii_isdigit
            (fs_with (Return (mkDocument (Return [])
                                (map Return (ten_pages ++ [])))))
            PDF_PATH).
Proof.
  exact (@outline_ignores_later_pages ascii_isdigit
           (fs_with (Return (mkDocument (Return [])
                               (map Return (ten_pages ++ [u "Kapitel 9 ... 99"])))))
           (fs_with (Return (mkDocument (Return [])
                               (map Return (ten_pages ++ [])))))
           PDF_PATH PDF_PATH ten_pages [u "Kapitel 9 ... 99"] []
           eq_refl eq_refl eq_refl eq_refl (le_n 10)).
Defined.

Lemma fallback_outline_lines_witness :
  exists text,
    res_toc_text
      (extract_pdf_data ascii_isdigit
         (fs_with (Return (mkDocument (Return [])
                             (map Return [sample_contents_page]))))
         PDF_PATH) = Some text
    /\ split_nl text
       = [toc_heading; []; u "- Einleitung ... 3"; u "- Methoden 12";
          u "- Anhang 40"; []].
Proof.
  exact (@fallback_outline_lines ascii_isdigit
           (fs_with (Return (mkDocument (Return [])
                               (map Return [sample_contents_page]))))
           PDF_PATH [sample_contents_page] eq_refl eq_refl (le_n 3)).
Defined.

Lemma line_without_digit_ignored_witness :
  scan_line ascii_isdigit (u "Inhalt ...") initial_locals
  = (initial_locals, Return tt).
Proof.
  exact (@line_without_digit_ignored ascii_isdigit (u "Inhalt ...")
           initial_locals eq_refl).
Defined.

Lemma short_line_ignored_witness :
  scan_line ascii_isdigit (u "   123  ") initial_locals
  = (initial_locals, Return tt).
Proof.
  apply (@short_line_ignored ascii_isdigit (u "   123  ") initial_locals eq_refl).
  vm_compute. lia.
Defined.

Lemma padding_is_ignored_witness :
  scan_line ascii_isdigit (u "  " ++ u "Methoden 12" ++ u " ") initial_locals
  = scan_line ascii_isdigit (u "Methoden 12") initial_locals.
Proof.
  exact (@padding_is_ignored ascii_isdigit (u "  ") (u "Methoden 12") (u " ")
           initial_locals eq_refl eq_refl).
Defined.

Lemma late_page_failure_witness :
  extract_pdf_data ascii_isdigit
    (fs_with (Return (mkDocument (Return [])
                        (map Return ten_plain_pages
                           ++ [Raise (u "cannot load page")]))))
    PDF_PATH
  = (None, None, Some toc_warning,
     Some (pdf_error_message (u "cannot load page"))).
Proof.
  exact (@late_page_failure ascii_isdigit
           (fs_with (Return (mkDocument (Return [])
                               (map Return ten_plain_pages
                                  ++ [Raise (u "cannot load page")]))))
           PDF_PATH ten_plain_pages (u "cannot load page") []
           eq_refl eq_refl (le_n 10)).
Defined.

Lemma document_without_pages_witness :
  extract_pdf_data ascii_isdigit
    (fs_with (Return (mkDocument (Return []) []))) PDF_PATH
  = (Some [], None, Some toc_warning, None).
Proof.
  exact (@document_without_pages ascii_isdigit
           (fs_with (Return (mkDocument (Return []) []))) PDF_PATH []
           eq_refl eq_refl).
Defined.

Lemma initialize_pdf_data_outcome_witness :
  exists rt',
    initialize_pdf_data world_ok PDF_PATH fresh_runtime = (rt', Return true)
    /\ pdf_data (session rt') = Some [].
Proof.
  destruct (initialize_pdf_data_outcome world_ok PDF_PATH fresh_runtime)
    as (rt' & E & _ & _ & Hd & _).
  exists rt'. split; [exact E | exact (Hd [] eq_refl eq_refl)].
Defined.

Lemma initialize_pdf_data_once_witness :
  initialize_pdf_data world_no_pdf PDF_PATH
    (fst (initialize_pdf_data world_ok PDF_PATH fresh_runtime))
  = (fst (initialize_pdf_data world_ok PDF_PATH fresh_runtime), Return true).
Proof.
  exact (@initialize_pdf_data_once world_ok world_no_pdf PDF_PATH PDF_PATH
           fresh_runtime
           (fst (initialize_pdf_data world_ok PDF_PATH fresh_runtime))
           eq_refl).
Defined.

Lemma unreadable_pdf_blocks_page_witness :
  main world_no_pdf (mkForm (Some twenty_characters) true) fresh_runtime
  = (mkRuntime (session fresh_runtime)
       (trace fresh_runtime ++ page_head
          ++ [st_spinner (u "Lade '" ++ basename PDF_PATH ++ u "'...");
              genai_configure (API_KEY world_no_pdf);
              st_error (u "Fehler beim Laden der PDF: "
                          ++ u "No such file or directory");
              st_error load_failure_message;
              st_chrome "render_footer"]),
     Return tt).
Proof.
  exact (@unreadable_pdf_blocks_page world_no_pdf
           (mkForm (Some twenty_characters) true) fresh_runtime
           (u "No such file or directory") eq_refl eq_refl).
Defined.

Lemma answer_rendering_witness :
  exists evs,
    trace (fst (main world_ok (mkForm (Some twenty_characters) true)
                     fresh_runtime))
    = trace fresh_runtime ++ evs
        ++ [api_call MODEL_NAME (request_for [] twenty_characters);
            st_markdown (u "---");
            st_subheader (u "Ergebnis der Analyse");
            st_markdown
              (u "<div class=" ++ [quote] ++ u "result-card" ++ [quote]
                 ++ u ">## Result" ++ nl ++ u "OK</div>");
            st_chrome "render_footer"].
Proof.
  exact (@answer_rendering world_ok twenty_characters fresh_runtime []
           (mkResponse (Return sample_answer)) sample_answer
           (le_n 20) eq_refl eq_refl eq_refl eq_refl).
Defined.

Lemma service_failure_rendering_witness :
  exists evs,
    trace (fst (main world_quota (mkForm (Some twenty_characters) true)
                     fresh_runtime))
    = trace fresh_runtime ++ evs
        ++ [api_call MODEL_NAME (request_for [] twenty_characters);
            st_error
              (u "Fehler bei der Kommunikation mit der Gemini API: 429 quota exceeded");
            st_markdown (u "---");
            st_subheader (u "Ergebnis der Analyse");
            st_error
              (u "Es konnten keine Vorschläge generiert werden. Überprüfen Sie die Fehlermeldungen.");
            st_chrome "render_footer"].
Proof.
  exact (@service_failure_rendering world_quota twenty_characters fresh_runtime
           [] (u "429 quota exceeded") (le_n 20) eq_refl eq_refl eq_refl).
Defined.

Lemma prompt_embeds_description_witness :
  contains ([quote] ++ twenty_characters ++ [quote])
           (build_prompt twenty_characters) = true
  /\ len (build_prompt twenty_characters)
     = len twenty_characters + len (build_prompt [])
  /\ twenty_characters = u "Team ohne Vision ...".
Proof.
  destruct (prompt_embeds_description twenty_characters
              (u "Team ohne Vision ...")) as (Hc & Hl & Hi).
  split; [exact Hc|]. split; [exact Hl|]. exact (Hi eq_refl).
Defined.

Lemma request_content_witness :
  filter is_api_call
    (trace (fst (get_ai_suggestions world_quota twenty_characters fresh_runtime)))
  = filter is_api_call (trace fresh_runtime)
      ++ [api_call MODEL_NAME
            (mkRequest (u "application/pdf") [] (build_prompt twenty_characters))]
  /\ filter is_api_call
       (trace (fst (get_ai_suggestions world_no_pdf twenty_characters
                                       fresh_runtime)))
     = filter is_api_call (trace fresh_runtime).
Proof.
  split.
  - exact (proj1 (request_content world_quota twenty_characters fresh_runtime)
                 [] eq_refl eq_refl).
  - exact (proj2 (request_content world_no_pdf twenty_characters fresh_runtime)
                 (u "No such file or directory") eq_refl).
Defined.

Lemma unusable_key_blocks_submissions_witness :
  filter is_requester_call
    (trace (fst (main (world_from (mkKeySources (Return []) (Some (u "secret")))
                                  (fun _ => Return [])
                                  (fun _ _ => Return (mkResponse (Return sample_answer))))
                      (mkForm (Some twenty_characters) true) fresh_runtime)))
  = filter is_requester_call (trace fresh_runtime)
  /\ exists evs,
      trace (fst (main (world_from (mkKeySources (Return []) (Some (u "secret")))
                                   (fun _ => Return [])
                                   (fun _ _ => Return (mkResponse (Return sample_answer))))
                       (mkForm (Some twenty_characters) true) fresh_runtime))
      = evs ++ [st_error key_missing_message; st_chrome "render_footer"].
Proof.
  destruct (@unusable_key_blocks_submissions
              (mkKeySources (Return []) (Some (u "secret")))
              (fun _ => Return [])
              (fun _ _ => Return (mkResponse (Return sample_answer)))
              (mkForm (Some twenty_characters) true) fresh_runtime
              (or_introl eq_refl)) as (Hc & _ & He).
  split; [exact Hc | exact (He eq_refl eq_refl eq_refl)].
Defined.

Lemma exception_gives_no_partial_text_witness :
  first_exception
    (fs_with (Return (mkDocument (Return sample_outline)
                        [Return sample_contents_page;
                         Raise (u "cannot load page")])))
    PDF_PATH
  = Some (u "cannot load page")
  /\ extract_pdf_data ascii_isdigit
       (fs_with (Return (mkDocument (Return sample_outline)
                           [Return sample_contents_page;
                            Raise (u "cannot load page")])))
       PDF_PATH
     = (None, None, None,
        Some (u "Fehler bei der PDF-Verarbeitung: cannot load page"))
  /\ contains (u "cannot load page")
              (u "Fehler bei der PDF-Verarbeitung: cannot load page") = true.
Proof.
  destruct (@exception_gives_no_partial_text ascii_isdigit
              (fs_with (Return (mkDocument (Return sample_outline)
                                  [Return sample_contents_page;
                                   Raise (u "cannot load page")])))
              PDF_PATH eq_refl eq_refl) as (e & st & He & Et & Ex & Hc).
  vm_compute in He. inversion He; subst e.
  vm_compute in Et. inversion Et; subst st.
  split; [reflexivity|]. split; [exact Ex | exact Hc].
Defined.
